(** * Box-score extraction: a shallow embedding of [extract/scraper.py]

    The development follows [scrape_nba_stats] line by line.  Text is
    modelled as [string] (code points below 128), Python integers as [Z],
    the records of the output as finite maps from key to value, the parsed
    page (what [BeautifulSoup(driver.page_source, 'html.parser')] returns) as
    a tree of tags and text nodes, and the Selenium driver as an abstract
    backend whose calls are recorded in a trace.  Exceptions are explicit
    results; the [while True] loop of the pagination runs on fuel, and a
    run that exhausts it is a run that does not end. *)

From Stdlib Require Import ZArith Ascii String List Bool Lia DecimalString.
From stdpp Require Import base gmap strings list.

Set Warnings "-register-all".

Local Open Scope Z_scope.
Local Open Scope string_scope.
Local Open Scope list_scope.

(** ** Text primitives *)

Module Text.

(** [str.isspace] on the code points below 128: TAB..CR, FS..US, space. *)
Definition is_space (c : ascii) : bool :=
  let n := N_of_ascii c in
  (((9 <=? n) && (n <=? 13)) || ((28 <=? n) && (n <=? 32)))%N.

Fixpoint lstrip (l : list ascii) : list ascii :=
  match l with
  | c :: r => if is_space c then lstrip r else l
  | [] => []
  end.

Definition rstrip (l : list ascii) : list ascii := rev (lstrip (rev l)).

(** [s.strip()] *)
Definition strip (s : string) : string :=
  string_of_list_ascii (rstrip (lstrip (list_ascii_of_string s))).

Definition digit_of (c : ascii) : option Z :=
  let n := N_of_ascii c in
  if ((48 <=? n) && (n <=? 57))%N then Some (Z.of_N n - 48) else None.

Definition is_underscore (c : ascii) : bool := (N_of_ascii c =? 95)%N.

(** The digit part of an integer literal in base 10: digits, with single
    underscores allowed between two digits.  Returns the value and the
    number of digits read. *)
Fixpoint scan_digits (prev_us : bool) (acc : Z) (n : nat) (l : list ascii)
  : option (Z * nat) :=
  match l with
  | [] => if prev_us then None else Some (acc, n)
  | c :: r =>
      if is_underscore c then
        if prev_us then None else scan_digits true acc n r
      else
        match digit_of c with
        | Some d => scan_digits false (10 * acc + d) (S n) r
        | None => None
        end
  end.

(** [sys.get_int_max_str_digits()], the default of CPython 3.11 and later. *)
Definition int_max_str_digits : nat := 4300.

Definition is_plus (c : ascii) : bool := (N_of_ascii c =? 43)%N.
Definition is_minus (c : ascii) : bool := (N_of_ascii c =? 45)%N.

(** [int(s)] for a [str] argument; [None] stands for [ValueError].  Blanks
    around the literal are skipped, one sign may come first, and there is
    a limit on the number of digits. *)
Definition python_int (s : string) : option Z :=
  let l := rstrip (lstrip (list_ascii_of_string s)) in
  let '(neg, body) :=
    match l with
    | c :: r =>
        if is_plus c then (false, r)
        else if is_minus c then (true, r)
        else (false, l)
    | [] => (false, l)
    end in
  match body with
  | [] => None
  | c :: _ =>
      if is_underscore c then None
      else
        match scan_digits false 0 0%nat body with
        | Some (v, n) =>
            if (int_max_str_digits <? n)%nat then None
            else Some (if neg then - v else v)
        | None => None
        end
  end.


(** [str(z)] for an [int] *)
Definition str_of_int (z : Z) : string := NilZero.string_of_int (Z.to_int z).

Fixpoint is_prefix (p s : string) : bool :=
  match p, s with
  | EmptyString, _ => true
  | String a p', String b s' => if Ascii.eqb a b then is_prefix p' s' else false
  | String _ _, EmptyString => false
  end.

(** [p in s] for two strings *)
Fixpoint contains (p s : string) : bool :=
  is_prefix p s ||
  match s with
  | EmptyString => false
  | String _ s' => contains p s'
  end.

End Text.

(** ** Exceptions and the two result types *)

Inductive exn : Type :=
  | NoSuchElementException
  | ElementClickInterceptedException
  | WebDriverException          (* any other Selenium error *)
  | IndexError
  | ValueError
  | KeyError
  | TypeError
  | KeyboardInterrupt.          (* a BaseException that is not an Exception *)

Global Instance exn_eq_dec : EqDecision exn.
Proof. solve_decision. Defined.

(** [isinstance(e, Exception)] *)
Definition is_Exception (e : exn) : bool :=
  match e with KeyboardInterrupt => false | _ => true end.

(** Results of pure code that may raise. *)
Inductive py (A : Type) : Type :=
  | Val (a : A)
  | Exn (e : exn).
Arguments Val {A} a.
Arguments Exn {A} e.

Global Instance py_ret : MRet py := fun A a => Val a.
Global Instance py_bind : MBind py := fun A B k m =>
  match m with Val a => k a | Exn e => Exn e end.

(** ** Parsed markup and the BeautifulSoup queries the scraper uses

    A document is the list of its top-level nodes; a node is a piece of
    text or a tag with its children.  Attributes are not kept, no query of
    the scraper reads them, and neither are comments, which [get_text]
    leaves out. *)

Inductive node : Type :=
  | NText (s : string)
  | NTag (name : string) (children : list node).

Module Soup.

(** [tag.find_all(name)] over a list of children: every descendant tag of
    that name, in document order. *)
Fixpoint find_all_node (name : string) (n : node) {struct n} : list node :=
  match n with
  | NText _ => []
  | NTag nm ch =>
      (if String.eqb nm name then [n] else [])
        ++ flat_map (find_all_node name) ch
  end.

Definition find_all (name : string) (children : list node) : list node :=
  flat_map (find_all_node name) children.

Definition children (n : node) : list node :=
  match n with NText _ => [] | NTag _ ch => ch end.

(** [soup.find(name)]: the first match or [None]. *)
Definition find (name : string) (soup : list node) : option node :=
  head (find_all name soup).

Fixpoint strings_of (n : node) {struct n} : list string :=
  match n with
  | NText s => [s]
  | NTag _ ch => flat_map strings_of ch
  end.

Definition nonempty (s : string) : bool :=
  match s with EmptyString => false | _ => true end.

(** [tag.get_text(strip=True)]: every text piece stripped, the empty ones
    left out, the rest joined with the empty separator. *)
Definition get_text_strip (n : node) : string :=
  String.concat "" (List.filter nonempty (map Text.strip (strings_of n))).

End Soup.

(** ** Records *)

Inductive value : Type :=
  | VStr (s : string)
  | VInt (z : Z).

Global Instance value_eq_dec : EqDecision value.
Proof. solve_decision. Defined.

Abbreviation record := (gmap string value).

(** [columns[i]] *)
Definition index {A} (l : list A) (i : nat) : py A :=
  match nth_error l i with
  | Some a => Val a
  | None => Exn IndexError
  end.

(** [int(text or 0)] *)
Definition int_or_0 (text : string) : py Z :=
  if Soup.nonempty text then
    match Text.python_int text with
    | Some z => Val z
    | None => Exn ValueError
    end
  else Val 0.

(** The dictionary display of the source (lines 118-127): the values are
    evaluated from top to bottom, the dictionary exists only when all
    seven evaluations returned. *)
Definition make_record (columns : list node) : py record :=
  c0 ← index columns 0;
  let game_date := Soup.get_text_strip c0 in
  c1 ← index columns 1;
  let player_name := Soup.get_text_strip c1 in
  c2 ← index columns 2;
  let team := Soup.get_text_strip c2 in
  c3 ← index columns 3;
  let opponent := Soup.get_text_strip c3 in
  c4 ← index columns 4;
  points ← int_or_0 (Soup.get_text_strip c4);
  c5 ← index columns 5;
  rebounds ← int_or_0 (Soup.get_text_strip c5);
  c6 ← index columns 6;
  assists ← int_or_0 (Soup.get_text_strip c6);
  Val (<["assists" := VInt assists]>
       (<["rebounds" := VInt rebounds]>
        (<["points" := VInt points]>
         (<["opponent" := VStr opponent]>
          (<["team" := VStr team]>
           (<["player_name" := VStr player_name]>
            (<["game_date" := VStr game_date]> (∅ : record)))))))).

(** ** The driver, the world and the monad of the scraper *)

(** Calls made to the outside, in the order they are made. *)
Inductive call (elem : Type) : Type :=
  | CInstall                                   (* ChromeDriverManager().install() *)
  | CChrome                                    (* webdriver.Chrome(service=, options=) *)
  | CGet (url : string)                        (* driver.get(url) *)
  | CFindElement (xpath : string)              (* driver.find_element("xpath", _) *)
  | CSelect (e : elem)                         (* Select(e) *)
  | CSelectByVisibleText (e : elem) (text : string)
  | CFirstSelectedOption (e : elem)
  | CText (e : elem)                           (* e.text *)
  | COptions (e : elem)                        (* select.options *)
  | CGetAttribute (e : elem) (name : string)
  | CClick (e : elem)
  | CPageSource                                (* driver.page_source, then parsed *)
  | CQuit                                      (* driver.quit() *)
  | CSleep (seconds : nat).                    (* time.sleep(_) *)
Arguments CInstall {elem}.
Arguments CChrome {elem}.
Arguments CGet {elem} url.
Arguments CFindElement {elem} xpath.
Arguments CSelect {elem} e.
Arguments CSelectByVisibleText {elem} e text.
Arguments CFirstSelectedOption {elem} e.
Arguments CText {elem} e.
Arguments COptions {elem} e.
Arguments CGetAttribute {elem} e name.
Arguments CClick {elem} e.
Arguments CPageSource {elem}.
Arguments CQuit {elem}.
Arguments CSleep {elem} seconds.

Definition is_quit {elem} (c : call elem) : bool :=
  match c with CQuit => true | _ => false end.

Definition is_page_source {elem} (c : call elem) : bool :=
  match c with CPageSource => true | _ => false end.

(** The page-rendering backend: a state [B] of the browser and the site
    behind it, handles [elem] of page elements, and what each call answers.
    A call may change the state also when it raises. *)
Class Driver (B elem : Type) : Type := {
  drv_install : B -> py unit * B;
  drv_chrome : B -> py unit * B;
  drv_get : string -> B -> py unit * B;
  drv_find_element : string -> B -> py elem * B;
  drv_select : elem -> B -> py unit * B;
  drv_select_by_visible_text : elem -> string -> B -> py unit * B;
  drv_first_selected_option : elem -> B -> py elem * B;
  drv_text : elem -> B -> py string * B;
  drv_options : elem -> B -> py (list elem) * B;
  drv_get_attribute : elem -> string -> B -> py (option string) * B;
  drv_click : elem -> B -> py unit * B;
  drv_page_source : B -> py (list node) * B;
  drv_quit : B -> py unit * B
}.

Inductive log_entry : Type :=
  | INFO (msg : string)
  | WARNING (msg : string)
  | ERROR (msg : string).

Record world (B elem : Type) : Type := World {
  browser : B;
  calls : list (call elem);
  log : list log_entry
}.
Arguments World {B elem} browser calls log.
Arguments browser {B elem} w.
Arguments calls {B elem} w.
Arguments log {B elem} w.

(** How a computation ends: with a value, with an exception, or not at all
    (the fuel of a [while True] ran out). *)
Inductive outcome (A : Type) : Type :=
  | Ok (a : A)
  | Raise (e : exn)
  | Diverge.
Arguments Ok {A} a.
Arguments Raise {A} e.
Arguments Diverge {A}.

(** Whether a computation ends at all. *)
Definition ends {A} (r : outcome A) : bool :=
  match r with Diverge => false | _ => true end.

(** The sequence a run hands to its caller: none when it raises. *)
Definition returned {A} (r : outcome (list A)) : list A :=
  match r with Ok l => l | _ => [] end.

Definition of_py {A} (r : py A) : outcome A :=
  match r with Val a => Ok a | Exn e => Raise e end.

Inductive loop_ctl : Type := Again | Break.

(** [str(e)] for an exception: its text is not modelled, the class name
    stands for it. *)
Definition str_of_exn (e : exn) : string :=
  match e with
  | NoSuchElementException => "NoSuchElementException"
  | ElementClickInterceptedException => "ElementClickInterceptedException"
  | WebDriverException => "WebDriverException"
  | IndexError => "IndexError"
  | ValueError => "ValueError"
  | KeyError => "KeyError"
  | TypeError => "TypeError"
  | KeyboardInterrupt => "KeyboardInterrupt"
  end.

(** The configuration dictionary, with the three keys of the docstring.
    The dictionary in force from line 38 on has all three, so neither the
    [KeyError] of a subscript nor the default of [config.get('seasons', _)]
    at line 64 comes into play. *)
Record Config : Type := {
  nba_stats_url : string;
  seasons : list string;
  season_type : string
}.

Section Scraper.

Context {B elem : Type} `{D : Driver B elem}.

Definition M (A : Type) : Type := world B elem -> outcome A * world B elem.

Definition ret {A} (a : A) : M A := fun w => (Ok a, w).

Definition bind {A C} (m : M A) (k : A -> M C) : M C := fun w =>
  match m w with
  | (Ok a, w') => k a w'
  | (Raise e, w') => (Raise e, w')
  | (Diverge, w') => (Diverge, w')
  end.

Definition raise {A} (e : exn) : M A := fun w => (Raise e, w).

Definition diverge {A} : M A := fun w => (Diverge, w).

Definition lift {A} (r : py A) : M A := fun w => (of_py r, w).

(** One call to the backend, recorded in the trace. *)
Definition invoke {A} (c : call elem) (op : B -> py A * B) : M A := fun w =>
  let '(r, b) := op (browser w) in
  (of_py r, World b (calls w ++ [c]) (log w)).

Definition logging (l : log_entry) : M unit := fun w =>
  (Ok tt, World (browser w) (calls w) (log w ++ [l])).

Definition sleep (seconds : nat) : M unit := fun w =>
  (Ok tt, World (browser w) (calls w ++ [CSleep seconds]) (log w)).

(** [try: body except ...]: [handler e] is the clause that matches [e],
    if there is one. *)
Definition try_except {A} (body : M A) (handler : exn -> option (M A)) : M A :=
  fun w =>
    match body w with
    | (Raise e, w') =>
        match handler e with
        | Some h => h w'
        | None => (Raise e, w')
        end
    | r => r
    end.

(** [try: body finally: fin].  When the body does not end, [fin] is never
    reached; an exception of [fin] replaces the outcome of the body. *)
Definition try_finally {A} (body : M A) (fin : M unit) : M A := fun w =>
  match body w with
  | (Diverge, w') => (Diverge, w')
  | (r, w') =>
      match fin w' with
      | (Ok _, w'') => (r, w'')
      | (Raise e, w'') => (Raise e, w'')
      | (Diverge, w'') => (Diverge, w'')
      end
  end.

End Scraper.

Notation "x <- m ;; k" := (bind m (fun x => k))
  (at level 100, m at next level, right associativity, only parsing).
Notation "m ;;; k" := (bind m (fun _ => k))
  (at level 100, right associativity, only parsing).

(** ** The scraper *)

Definition not_found_msg : log_entry :=
  INFO "Page dropdown not found. Attempting to click 'Next' button instead.".


Definition season_dropdown_xpath : string :=
  "/html/body/div[1]/div[2]/div[2]/div[3]/section[1]/div/div/div[1]/label/div/select".

Definition season_type_dropdown_xpath : string :=
  "/html/body/div[1]/div[2]/div[2]/div[3]/section[1]/div/div/div[2]/label/div/select".

Definition next_button_xpath : string :=
  "/html/body/div[1]/div[2]/div[2]/div[3]/section[2]/div/div[2]/div[2]/div[1]/div[3]/div/label/div/select".

Definition next_button_by_label : string := "//button[@aria-label='Next']".

(** The dictionary bound to [config] at lines 38-42. *)
Definition hard_config : Config := {|
  nba_stats_url := "https://www.nba.com/stats/players/boxscores";
  seasons := ["2024-25"];
  season_type := "Regular Season"
|}.

Section Scrape.

Context {B elem : Type} `{D : Driver B elem}.

Local Abbreviation M := (@M B elem).

(** Lines 111-131: one [tr] of the table. *)
Definition parse_row (row : node) (all_data : list record) : M (list record) :=
  let columns := Soup.find_all "td" (Soup.children row) in
  match columns with
  | [] => ret all_data                              (* continue *)
  | _ :: _ =>
      try_except
        (record <- lift (make_record columns) ;;
         ret (all_data ++ [record]))
        (fun e =>
           match e with
           | IndexError | ValueError =>
               Some (logging (WARNING ("Error parsing row data: " +:+ str_of_exn e)) ;;;
                     ret all_data)
           | _ => None
           end)
  end.

(** Lines 111-131: [for row in rows]. *)
Fixpoint parse_rows (rows : list node) (all_data : list record) : M (list record) :=
  match rows with
  | [] => ret all_data
  | row :: rest =>
      all_data <- parse_row row all_data ;;
      parse_rows rest all_data
  end.

(** Lines 159-172: the Next button, tried when the page dropdown raised
    [NoSuchElementException]. *)
Definition click_next : M loop_ctl :=
  try_except
    (next_button <- invoke (CFindElement next_button_by_label)
                           (drv_find_element next_button_by_label) ;;
     cls <- invoke (CGetAttribute next_button "class")
                   (drv_get_attribute next_button "class") ;;
     disabled <- match cls with
                 | Some c => ret (Text.contains "disabled" c)
                 | None => raise TypeError        (* 'disabled' in None *)
                 end ;;
     if (disabled : bool) then
       logging (INFO "Next button is disabled. Ending pagination.") ;;;
       ret Break
     else
       invoke (CClick next_button) (drv_click next_button) ;;;
       logging (INFO "Clicked Next button.") ;;;
       sleep 3 ;;;
       ret Again)
    (fun e =>
       match e with
       | NoSuchElementException =>
           Some (logging (INFO "No Next button found. Ending pagination.") ;;;
                 ret Break)
       | ElementClickInterceptedException =>
           Some (logging (ERROR ("Could not click Next button: " +:+ str_of_exn e)) ;;;
                 ret Break)
       | _ => None
       end).

(** Lines 134-155: the page dropdown. *)
Definition select_next_page : M loop_ctl :=
  page_dropdown_element <- invoke (CFindElement next_button_xpath)
                                  (drv_find_element next_button_xpath) ;;
  invoke (CSelect page_dropdown_element) (drv_select page_dropdown_element) ;;;
  selected_option <- invoke (CFirstSelectedOption page_dropdown_element)
                            (drv_first_selected_option page_dropdown_element) ;;
  text <- invoke (CText selected_option) (drv_text selected_option) ;;
  current_page <- match Text.python_int text with
                  | Some z => ret z
                  | None => raise ValueError
                  end ;;
  options <- invoke (COptions page_dropdown_element)
                    (drv_options page_dropdown_element) ;;
  let total_pages := Z.of_nat (length options) in
  logging (INFO ("Current Page: " +:+ Text.str_of_int current_page
                 +:+ " / Total Pages: " +:+ Text.str_of_int total_pages)) ;;;
  if (current_page <? total_pages)%Z then
    let next_page_number := current_page + 1 in
    invoke (CSelectByVisibleText page_dropdown_element (Text.str_of_int next_page_number))
           (drv_select_by_visible_text page_dropdown_element
              (Text.str_of_int next_page_number)) ;;;
    logging (INFO ("Navigated to Page: " +:+ Text.str_of_int next_page_number)) ;;;
    sleep 3 ;;;
    ret Again
  else
    logging (INFO "Reached the last page.") ;;;
    ret Break.

(** Lines 134-175: the whole [try] statement that decides the advance.  An
    exception raised inside the first handler is not seen by the last one. *)
Definition deciding_advance : M loop_ctl :=
  try_except select_next_page
    (fun e =>
       match e with
       | NoSuchElementException =>
           Some (logging not_found_msg ;;; click_next)
       | _ =>
           if is_Exception e then
             Some (logging (ERROR ("Error handling pagination: " +:+ str_of_exn e)) ;;;
                   ret Break)
           else None
       end).

(** Lines 104-131: the table of the page and its rows.  [false] stands for
    the [break] of line 107. *)
Definition parsing_page (soup : list node) (all_data : list record)
  : M (bool * list record) :=
  match Soup.find "table" soup with
  | None =>
      logging (WARNING "No table found on the page.") ;;;
      ret (false, all_data)
  | Some stats_table =>
      let rows := tail (Soup.find_all "tr" (Soup.children stats_table)) in
      all_data <- parse_rows rows all_data ;;
      ret (true, all_data)
  end.

(** Lines 100-175: one turn of [while True]. *)
Definition page_iteration (all_data : list record) : M (loop_ctl * list record) :=
  soup <- invoke CPageSource drv_page_source ;;
  r <- parsing_page soup all_data ;;
  match r with
  | (false, all_data) => ret (Break, all_data)
  | (true, all_data) =>
      ctl <- deciding_advance ;;
      ret (ctl, all_data)
  end.

(** Lines 99-175: [while True], with fuel. *)
Fixpoint pagination (fuel : nat) (all_data : list record) : M (list record) :=
  match fuel with
  | O => diverge
  | S fuel' =>
      r <- page_iteration all_data ;;
      match r with
      | (Break, all_data) => ret all_data
      | (Again, all_data) => pagination fuel' all_data
      end
  end.

(** Lines 69-81 and 84-96: a dropdown of the filter bar.  [true] when the
    selection was made, [false] for [continue]. *)
Definition select_filter (xpath text : string) (selected not_found failed : string)
  : M bool :=
  try_except
    (dropdown_element <- invoke (CFindElement xpath) (drv_find_element xpath) ;;
     invoke (CSelect dropdown_element) (drv_select dropdown_element) ;;;
     invoke (CSelectByVisibleText dropdown_element text)
            (drv_select_by_visible_text dropdown_element text) ;;;
     logging (INFO (selected +:+ text)) ;;;
     sleep 3 ;;;
     ret true)
    (fun e =>
       match e with
       | NoSuchElementException =>
           Some (logging (ERROR not_found) ;;; ret false)
       | _ =>
           if is_Exception e then
             Some (logging (ERROR (failed +:+ text +:+ ": " +:+ str_of_exn e)) ;;;
                   ret false)
           else None
       end).

Definition select_season (season : string) : M bool :=
  select_filter season_dropdown_xpath season
    "Selected Season: "
    "Season dropdown not found. Check the XPath."
    "Error selecting season ".

Definition select_season_type (config : Config) : M bool :=
  select_filter season_type_dropdown_xpath (season_type config)
    "Selected Season Type: "
    "Season Type dropdown not found. Check the XPath."
    "Error selecting season type ".

(** Lines 66-96: the two selections that open the context of a season.
    [false] stands for one of the [continue] statements. *)
Definition open_context (config : Config) (season : string) : M bool :=
  logging (INFO ("Processing Season: " +:+ season)) ;;;
  ok <- select_season season ;;
  if (ok : bool) then select_season_type config else ret false.

(** Lines 66-175: the body of [for season in seasons]. *)
Definition season_context (fuel : nat) (config : Config) (season : string)
    (all_data : list record) : M (list record) :=
  ok <- open_context config season ;;
  if (ok : bool) then pagination fuel all_data else ret all_data.

(** Lines 65-175: [for season in seasons]. *)
Fixpoint for_seasons (fuel : nat) (config : Config) (seasons : list string)
    (all_data : list record) : M (list record) :=
  match seasons with
  | [] => ret all_data
  | season :: rest =>
      all_data <- season_context fuel config season all_data ;;
      for_seasons fuel config rest all_data
  end.

(** Lines 58-175: the body of the [try] statement. *)
Definition session_body (fuel : nat) (config : Config) : M (list record) :=
  invoke (CGet (nba_stats_url config)) (drv_get (nba_stats_url config)) ;;;
  logging (INFO "Navigated to NBA stats page.") ;;;
  sleep 5 ;;;
  for_seasons fuel config (seasons config) [].

(** Lines 178-179: the [finally] clause. *)
Definition session_end : M unit :=
  invoke CQuit drv_quit ;;;
  logging (INFO "WebDriver closed.").

(** Lines 57-179: the [try] ... [finally] statement, on the configuration
    in force. *)
Definition scrape_session (fuel : nat) (config : Config) : M (list record) :=
  try_finally (session_body fuel config) session_end.

(** [scrape_nba_stats(config)].  Line 38 rebinds [config]. *)
Definition scrape_nba_stats (fuel : nat) (config : Config) : M (list record) :=
  let config := hard_config in
  invoke CInstall drv_install ;;;
  invoke CChrome drv_chrome ;;;
  all_data <- scrape_session fuel config ;;
  logging (INFO ("Scraping complete. Total records collected: "
                 +:+ Text.str_of_int (Z.of_nat (length all_data)))) ;;;
  ret all_data.

End Scrape.

(** ** A simulated site, to run the scraper on

    A paginated table behind either pagination control.  The state of the
    browser is the number of the page shown. *)

Module Sim.

Inductive pager : Type := Dropdown | Button.

Record site : Type := {
  site_pages : list (list node);       (* the markup of page 1, 2, ... *)
  site_pager : pager;
  site_intercept : option nat          (* the page where clicking Next is intercepted *)
}.

Inductive sim_elem : Type :=
  | ESeason | ESeasonType | EPager | EOption (k : nat) | ENext.

Definition total (s : site) : nat := length (site_pages s).

Definition find_element (s : site) (xpath : string) (b : nat) : py sim_elem * nat :=
  if String.eqb xpath season_dropdown_xpath then (Val ESeason, b)
  else if String.eqb xpath season_type_dropdown_xpath then (Val ESeasonType, b)
  else if String.eqb xpath next_button_xpath then
    match site_pager s with
    | Dropdown => (Val EPager, b)
    | Button => (Exn NoSuchElementException, b)
    end
  else if String.eqb xpath next_button_by_label then
    match site_pager s with
    | Button => (Val ENext, b)
    | Dropdown => (Exn NoSuchElementException, b)
    end
  else (Exn NoSuchElementException, b).

Definition select (e : sim_elem) (b : nat) : py unit * nat :=
  match e with
  | ESeason | ESeasonType | EPager => (Val tt, b)
  | _ => (Exn WebDriverException, b)
  end.

Definition select_by_visible_text (s : site) (e : sim_elem) (text : string) (b : nat)
  : py unit * nat :=
  match e with
  | ESeason | ESeasonType => (Val tt, 1%nat)
  | EPager =>
      match List.find (fun k => String.eqb (Text.str_of_int (Z.of_nat k)) text)
                      (seq 1 (total s)) with
      | Some k => (Val tt, k)
      | None => (Exn NoSuchElementException, b)
      end
  | _ => (Exn WebDriverException, b)
  end.

Definition first_selected_option (e : sim_elem) (b : nat) : py sim_elem * nat :=
  match e with
  | EPager => (Val (EOption b), b)
  | _ => (Exn WebDriverException, b)
  end.

Definition text (e : sim_elem) (b : nat) : py string * nat :=
  match e with
  | EOption k => (Val (Text.str_of_int (Z.of_nat k)), b)
  | _ => (Val "", b)
  end.

Definition options (s : site) (e : sim_elem) (b : nat) : py (list sim_elem) * nat :=
  match e with
  | EPager => (Val (map EOption (seq 1 (total s))), b)
  | _ => (Exn WebDriverException, b)
  end.

Definition get_attribute (s : site) (e : sim_elem) (name : string) (b : nat)
  : py (option string) * nat :=
  match e with
  | ENext =>
      if String.eqb name "class" then
        (Val (Some (if (total s <=? b)%nat
                    then "Pagination_button disabled"
                    else "Pagination_button")), b)
      else (Val None, b)
  | _ => (Val None, b)
  end.

Definition click (s : site) (e : sim_elem) (b : nat) : py unit * nat :=
  match e with
  | ENext =>
      match site_intercept s with
      | Some k => if (k =? b)%nat then (Exn ElementClickInterceptedException, b)
                  else (Val tt, S b)
      | None => (Val tt, S b)
      end
  | _ => (Val tt, b)
  end.

Definition page_source (s : site) (b : nat) : py (list node) * nat :=
  (Val (nth (b - 1) (site_pages s) []), b).

Definition driver (s : site) : Driver nat sim_elem := {|
  drv_install := fun b => (Val tt, b);
  drv_chrome := fun b => (Val tt, b);
  drv_get := fun _ b => (Val tt, 1%nat);
  drv_find_element := find_element s;
  drv_select := select;
  drv_select_by_visible_text := select_by_visible_text s;
  drv_first_selected_option := first_selected_option;
  drv_text := text;
  drv_options := options s;
  drv_get_attribute := get_attribute s;
  drv_click := click s;
  drv_page_source := page_source s;
  drv_quit := fun b => (Val tt, b)
|}.

Definition start : world nat sim_elem := World 1%nat [] [].

Definition td (s : string) : node := NTag "td" [NText s].
Definition th (s : string) : node := NTag "th" [NText s].
Definition tr (cells : list node) : node := NTag "tr" cells.

Definition header : node :=
  tr (map th ["Date"; "Player"; "Team"; "Opp"; "PTS"; "REB"; "AST"]).

Definition data_row (cells : list string) : node := tr (map td cells).

Definition table (rows : list node) : list node :=
  [NTag "html" [NTag "body" [NTag "table" [NTag "tbody" (header :: rows)]]]].

Definition row1 : node := data_row ["2024-01-10"; "J. Doe"; "LAL"; "BOS"; "31"; "7"; "4"].
Definition row2 : node := data_row ["2024-01-10"; "A. Roe"; "BOS"; "LAL"; ""; " 12 "; "0"].
Definition row3 : node := data_row ["2024-01-11"; "B. Poe"; "NYK"; "MIA"; "8"; "2"; "11"].
Definition row4 : node := data_row ["2024-01-12"; "C. Coe"; "MIA"; "NYK"; "19"; "5"; "3"].
Definition row5 : node := data_row ["2024-01-12"; "D. Moe"; "DEN"; "PHX"; "22"; "9"; "6"].

Definition page1 : list node := table [row1; row2; row3].
Definition page2 : list node := table [row4; row5].

(** Two pages behind a page dropdown. *)
Definition dropdown_site : site :=
  {| site_pages := [page1; page2]; site_pager := Dropdown; site_intercept := None |}.

(** Two pages behind a Next button. *)
Definition button_site : site :=
  {| site_pages := [page1; page2]; site_pager := Button; site_intercept := None |}.

(** One page behind a Next button, which is disabled from the start. *)
Definition single_page_site : site :=
  {| site_pages := [page1]; site_pager := Button; site_intercept := None |}.

Definition page3 : list node := table [row1].

(** Three pages behind a Next button whose click is intercepted on page 2. *)
Definition overlay_site : site :=
  {| site_pages := [page1; page2; page3]; site_pager := Button;
     site_intercept := Some 2%nat |}.

(** A configuration other than the one written in the source. *)
Definition other_config : Config := {|
  nba_stats_url := "https://stats.example.org/boxscores";
  seasons := ["2022-23"; "2023-24"];
  season_type := "Playoffs"
|}.

(** The browser shows page [k] of the two of [dropdown_site]. *)
Definition shows (k b : nat) : Prop := b = k /\ (1 <= k <= 2)%nat.

End Sim.


(** The record of seven cells, given the three numbers. *)
Definition the_record (c0 c1 c2 c3 : node) (points rebounds assists : Z) : record :=
  <["assists" := VInt assists]>
    (<["rebounds" := VInt rebounds]>
     (<["points" := VInt points]>
      (<["opponent" := VStr (Soup.get_text_strip c3)]>
       (<["team" := VStr (Soup.get_text_strip c2)]>
        (<["player_name" := VStr (Soup.get_text_strip c1)]>
         (<["game_date" := VStr (Soup.get_text_strip c0)]> ∅)))))).

(** A numeric cell whose text [int] rejects. *)
Definition unparseable (text : string) : Prop :=
  text <> "" /\ Text.python_int text = None.

(** What a kept record holds under a numeric key, given the text of the
    cell: 0 in place of the empty text, the value of [int] otherwise. *)
Definition numeric_field (r : record) (k : string) (text : string) : Prop :=
  (text = "" -> r !! k = Some (VInt 0))
  /\ (text <> "" -> exists z, Text.python_int text = Some z /\ r !! k = Some (VInt z)).

(** ** What a page yields, as functions of its markup *)

Definition row_columns (row : node) : list node :=
  Soup.find_all "td" (Soup.children row).

(** The records a row adds to [all_data]: one or none. *)
Definition row_records (row : node) : list record :=
  match row_columns row with
  | [] => []
  | columns => match make_record columns with Val r => [r] | Exn _ => [] end
  end.

(** The log entries a row adds: a warning when it is dropped for an error. *)
Definition row_log (row : node) : list log_entry :=
  match row_columns row with
  | [] => []
  | columns =>
      match make_record columns with
      | Val _ => []
      | Exn e => [WARNING ("Error parsing row data: " +:+ str_of_exn e)]
      end
  end.

Definition page_rows (soup : list node) : list node :=
  match Soup.find "table" soup with
  | None => []
  | Some stats_table => tail (Soup.find_all "tr" (Soup.children stats_table))
  end.

Definition page_records (soup : list node) : list record :=
  flat_map row_records (page_rows soup).

(** The log entries of lines 104-131 for a page. *)
Definition page_log (soup : list node) : list log_entry :=
  match Soup.find "table" soup with
  | None => [WARNING "No table found on the page."]
  | Some _ => flat_map row_log (page_rows soup)
  end.

(** ** The shape of a record *)

Definition text_keys : list string := ["game_date"; "player_name"; "team"; "opponent"].
Definition number_keys : list string := ["points"; "rebounds"; "assists"].

Definition holds_str (r : record) (k : string) : Prop :=
  exists s, r !! k = Some (VStr s).

Definition holds_int (r : record) (k : string) : Prop :=
  exists z, r !! k = Some (VInt z).

Definition holds_nat (r : record) (k : string) : Prop :=
  exists z, r !! k = Some (VInt z) /\ 0 <= z.

(** Exactly the seven keys, four strings and three integers. *)
Definition record_shape (r : record) : Prop :=
  dom r = list_to_set (text_keys ++ number_keys)
  /\ Forall (holds_str r) text_keys
  /\ Forall (holds_int r) number_keys.

(** The same with the three integers non-negative. *)
Definition record_shape_nonneg (r : record) : Prop :=
  dom r = list_to_set (text_keys ++ number_keys)
  /\ Forall (holds_str r) text_keys
  /\ Forall (holds_nat r) number_keys.

(** ** Counting in the trace *)

Section Counting.

Context {B elem : Type} `{D : Driver B elem}.

Local Abbreviation M := (@M B elem).

(** The calls made between two worlds of one run. *)
Definition calls_since (w w' : world B elem) : list (call elem) :=
  drop (length (calls w)) (calls w').

(** The number of ParsingPage states between two worlds: one per read of
    [driver.page_source]. *)
Definition page_visits (w w' : world B elem) : nat :=
  length (List.filter is_page_source (calls_since w w')).

(** The number of [driver.quit()] calls between two worlds. *)
Definition quits (w w' : world B elem) : nat :=
  length (List.filter is_quit (calls_since w w')).

(** The texts chosen in dropdowns, in order. *)
Definition selected_texts (l : list (call elem)) : list string :=
  flat_map (fun c => match c with CSelectByVisibleText _ t => [t] | _ => [] end) l.

(** The addresses navigated to, in order. *)
Definition visited_urls (l : list (call elem)) : list string :=
  flat_map (fun c => match c with CGet url => [url] | _ => [] end) l.

(** The number of season contexts that were started: one per entry of
    line 66 in the log. *)
Definition season_runs (l : list log_entry) : nat :=
  length (List.filter
            (fun e => match e with
                      | INFO msg => Text.is_prefix "Processing Season: " msg
                      | _ => false
                      end) l).

(** [k] turns of the [while True] loop that all end in a next turn. *)
Fixpoint run_pages (k : nat) (all_data : list record) (w : world B elem)
  : option (list record * world B elem) :=
  match k with
  | O => Some (all_data, w)
  | S k' =>
      match page_iteration all_data w with
      | (Ok (Again, all_data'), w') => run_pages k' all_data' w'
      | _ => None
      end
  end.

(** A computation that extends the trace with calls other than
    [driver.quit()], however it ends. *)
Definition quiet {A} (m : M A) : Prop :=
  forall (w : world B elem) r w', m w = (r, w') ->
    exists l, calls w' = calls w ++ l /\ Forall (fun c => is_quit c = false) l.

(** A step on the accumulated data that only appends records of the
    documented shape. *)
Definition appends {A} (f : list record -> M A) (data : A -> list record) : Prop :=
  forall all_data (w : world B elem) a w', f all_data w = (Ok a, w') ->
    exists l, data a = all_data ++ l /\ Forall record_shape l.

(** Whether the session is acquired in a world: lines 51 and 54 return. *)
Definition acquires (w : world B elem) : bool :=
  match drv_install (browser w) with
  | (Val _, b) => match drv_chrome b with (Val _, _) => true | _ => false end
  | _ => false
  end.

(** The state of affairs in which the button strategy meets a Next control:
    the page is read and has a table, the page dropdown is not found, the
    Next button is found and its class attribute is [cls]. *)
Definition meets_next (w : world B elem) (soup : list node) (next_button : elem)
    (cls : string) (b : B) : Prop :=
  exists b1 b2 b3,
    drv_page_source (browser w) = (Val soup, b1)
    /\ Soup.find "table" soup <> None
    /\ drv_find_element next_button_xpath b1 = (Exn NoSuchElementException, b2)
    /\ drv_find_element next_button_by_label b2 = (Val next_button, b3)
    /\ drv_get_attribute next_button "class" b3 = (Val (Some cls), b).

(** A site that paginates with the page dropdown and honours its
    operations: in a state that [shows] page [k] of [T] the page has a table,
    the dropdown is found, its selected option reads [k], it has [T]
    options, and selecting the text of [k + 1] leads to a state that shows
    page [k + 1]. *)
Record dropdown_paginated (T : nat) (page_dropdown : elem) (shows : nat -> B -> Prop)
  : Prop := {
  ds_source : forall k b, shows k b ->
    exists soup b', drv_page_source b = (Val soup, b')
                    /\ Soup.find "table" soup <> None /\ shows k b';
  ds_find : forall k b, shows k b ->
    exists b', drv_find_element next_button_xpath b = (Val page_dropdown, b')
               /\ shows k b';
  ds_select : forall k b, shows k b ->
    exists b', drv_select page_dropdown b = (Val tt, b') /\ shows k b';
  ds_current : forall k b, shows k b ->
    exists opt b1 text b2,
      drv_first_selected_option page_dropdown b = (Val opt, b1)
      /\ drv_text opt b1 = (Val text, b2)
      /\ Text.python_int text = Some (Z.of_nat k)
      /\ shows k b2;
  ds_options : forall k b, shows k b ->
    exists opts b', drv_options page_dropdown b = (Val opts, b')
                    /\ length opts = T /\ shows k b';
  ds_advance : forall k b, shows k b -> (k < T)%nat ->
    exists b', drv_select_by_visible_text page_dropdown
                 (Text.str_of_int (Z.of_nat k + 1)) b = (Val tt, b')
               /\ shows (S k) b'
}.

(** The texts the dropdown strategy selects from page [k] on: those of
    [k + 1], ..., [k + n]. *)
Definition page_texts (k n : nat) : list string :=
  map (fun i => Text.str_of_int (Z.of_nat i + 1)) (seq k n).

(** The calls of a turn up to the reading of the class of the button. *)
Definition button_probe (next_button : elem) : list (call elem) :=
  [CPageSource; CFindElement next_button_xpath;
   CFindElement next_button_by_label; CGetAttribute next_button "class"].

(** The button rule as the specification words it: after a Next control is
    found disabled the context parses one more page. *)
Definition disabled_next_parses_one_more : Prop :=
  forall fuel all_data w soup next_button cls b,
    meets_next w soup next_button cls b ->
    Text.contains "disabled" cls = true ->
    page_visits w (snd (pagination (S (S fuel)) all_data w)) = 2%nat.

End Counting.

Module SimExtra.
Import Sim.

Definition row_minus : node :=
  data_row ["2024-01-13"; "E. Noe"; "UTA"; "SAC"; "-3"; "4"; "1"].

(** One page, one row whose points cell reads [-3]. *)
Definition minus_site : site :=
  {| site_pages := [table [row_minus]]; site_pager := Dropdown; site_intercept := None |}.

(** The world in which the pagination of the single-page site starts. *)
Definition at_first_page : world nat sim_elem := World 1%nat [] [].

(** The scraper on a site, from the first page. *)
Definition scrape_on (s : site) (fuel : nat) (config : Config)
  : outcome (list record) * world nat sim_elem :=
  scrape_nba_stats (D := driver s) fuel config start.

Definition paginate_on (s : site) (fuel : nat) (all_data : list record)
    (w : world nat sim_elem) : outcome (list record) * world nat sim_elem :=
  pagination (D := driver s) fuel all_data w.

Definition open_on (s : site) (config : Config) (season : string)
    (w : world nat sim_elem) : outcome bool * world nat sim_elem :=
  open_context (D := driver s) config season w.

Definition seasons_on (s : site) (fuel : nat) (config : Config) (seasons : list string)
    (all_data : list record) (w : world nat sim_elem)
  : outcome (list record) * world nat sim_elem :=
  for_seasons (D := driver s) fuel config seasons all_data w.

End SimExtra.

(** ** Further notions for the statements below *)


(** Whether a computation returns a value. *)
Definition succeeds {A} (r : outcome A) : bool :=
  match r with Ok _ => true | _ => false end.

(** The outcome of a computation that returns or raises something that is
    not an [Exception]. *)
Definition contained {A} (r : outcome A) : Prop :=
  match r with
  | Ok _ => True
  | Raise e => is_Exception e = false
  | Diverge => False
  end.

(** Whether a row has no [td] cell. *)
Definition cell_less (row : node) : bool :=
  match row_columns row with [] => true | _ :: _ => false end.

(** Whether a log entry is the one of line 66. *)
Definition is_season_entry (e : log_entry) : bool :=
  match e with
  | INFO msg => Text.is_prefix "Processing Season: " msg
  | _ => false
  end.

Section MoreCounting.

Context {B elem : Type} `{D : Driver B elem}.

Local Abbreviation M := (@M B elem).

(** A computation that extends the log with entries other than the one of
    line 66, however it ends. *)
Definition hushed {A} (m : M A) : Prop :=
  forall (w : world B elem) r w', m w = (r, w') ->
    exists l, log w' = log w ++ l /\ Forall (fun e => is_season_entry e = false) l.

(** The clicks on an element, in the trace. *)
Definition clicks (l : list (call elem)) : nat :=
  length (List.filter (fun c => match c with CClick _ => true | _ => false end) l).

(** The button strategy meets a Next control without a [class] attribute. *)
Definition meets_classless_next (w : world B elem) (soup : list node)
    (next_button : elem) (b : B) : Prop :=
  exists b1 b2 b3,
    drv_page_source (browser w) = (Val soup, b1)
    /\ Soup.find "table" soup <> None
    /\ drv_find_element next_button_xpath b1 = (Exn NoSuchElementException, b2)
    /\ drv_find_element next_button_by_label b2 = (Val next_button, b3)
    /\ drv_get_attribute next_button "class" b3 = (Val None, b).

(** The page is read and has a table, and the page dropdown is found with a
    selected option that reads [text]. *)
Definition meets_dropdown (w : world B elem) (soup : list node)
    (page_dropdown opt : elem) (text : string) (b : B) : Prop :=
  exists b1 b2 b3 b4,
    drv_page_source (browser w) = (Val soup, b1)
    /\ Soup.find "table" soup <> None
    /\ drv_find_element next_button_xpath b1 = (Val page_dropdown, b2)
    /\ drv_select page_dropdown b2 = (Val tt, b3)
    /\ drv_first_selected_option page_dropdown b3 = (Val opt, b4)
    /\ drv_text opt b4 = (Val text, b).

(** The calls of a turn up to the reading of the selected option. *)
Definition dropdown_probe (page_dropdown opt : elem) : list (call elem) :=
  [CPageSource; CFindElement next_button_xpath; CSelect page_dropdown;
   CFirstSelectedOption page_dropdown; CText opt].

(** A site that paginates with the Next button and honours its operations:
    in a state that [shows] page [k] the page source is [page_of k] and has
    a table, there is no page dropdown, the Next button is found, its class
    contains [disabled] exactly when [is_last k], and otherwise a click
    leads to a state that shows page [k + 1]. *)
Record button_paginated (is_last : nat -> bool) (next_button : elem)
    (page_of : nat -> list node) (shows : nat -> B -> Prop) : Prop := {
  bs_source : forall k b, shows k b ->
    exists b', drv_page_source b = (Val (page_of k), b')
               /\ Soup.find "table" (page_of k) <> None /\ shows k b';
  bs_no_dropdown : forall k b, shows k b ->
    exists b', drv_find_element next_button_xpath b = (Exn NoSuchElementException, b')
               /\ shows k b';
  bs_find : forall k b, shows k b ->
    exists b', drv_find_element next_button_by_label b = (Val next_button, b')
               /\ shows k b';
  bs_class : forall k b, shows k b ->
    exists cls b', drv_get_attribute next_button "class" b = (Val (Some cls), b')
                   /\ Text.contains "disabled" cls = is_last k /\ shows k b';
  bs_click : forall k b, shows k b -> is_last k = false ->
    exists b', drv_click next_button b = (Val tt, b') /\ shows (S k) b'
}.

(** The records of the pages [k], ..., [k + n - 1], in that order. *)
Definition records_of_pages (page_of : nat -> list node) (k n : nat) : list record :=
  flat_map (fun i => page_records (page_of i)) (seq k n).

End MoreCounting.

(** ** The pipeline of [main.py]

    [main] (lines 44-76) with its four collaborators as parameters:
    [setup_logging] and [load_config] of [main.py], which work on files, and
    the transform and load stages, which are other modules of the
    repository.  Each may do anything to the world and may raise. *)

Section Pipeline.

Context {B elem : Type} `{D : Driver B elem} {R : Type}.

Local Abbreviation M := (@M B elem).

Variable setup_logging : M unit.
Variable load_config : M Config.
Variable process_data : list record -> M (list R).
Variable load_to_database : list R -> Config -> M unit.

(** Lines 53-72: the body of the [try] statement. *)
Definition etl (fuel : nat) : M unit :=
  config <- load_config ;;
  logging (INFO "Configuration loaded successfully") ;;;
  logging (INFO "Starting data extraction") ;;;
  raw_data <- scrape_nba_stats fuel config ;;
  logging (INFO ("Data extraction complete. Records extracted: "
                 +:+ Text.str_of_int (Z.of_nat (length raw_data)))) ;;;
  logging (INFO "Starting data transformation") ;;;
  transformed_data <- process_data raw_data ;;
  logging (INFO ("Data transformation complete. Records transformed: "
                 +:+ Text.str_of_int (Z.of_nat (length transformed_data)))) ;;;
  logging (INFO "Starting data loading") ;;;
  load_to_database transformed_data config ;;;
  logging (INFO "Data loading complete") ;;;
  logging (INFO "ETL pipeline finished successfully").

(** Lines 44-76: [main()]. *)
Definition main (fuel : nat) : M unit :=
  setup_logging ;;;
  logging (INFO "Starting ETL pipeline") ;;;
  try_except (etl fuel)
    (fun e =>
       if is_Exception e then
         Some (logging (ERROR ("ETL pipeline failed: " +:+ str_of_exn e)))
       else None).

End Pipeline.

(** ** More simulated sites *)

Module SimMore.
Import Sim.

(** Ways in which a site or a browser departs from [Sim.driver]. *)
Inductive fault : Type :=
  | NoFilters        (* the season dropdown is not on the page *)
  | NoPager          (* neither a page dropdown nor a Next button *)
  | Classless        (* a Next button without a class attribute *)
  | StaleClick       (* the click on the Next button fails *)
  | WordyPage        (* the selected page option reads as a word *)
  | MissingOption    (* the text of the next page is not an option *)
  | Endless          (* a Next button that is never disabled, page after page *)
  | StuckQuit        (* a browser whose quit fails *)
  | DeadSite.        (* the address cannot be reached *)

Definition faulty_driver (f : fault) (s : site) : Driver nat sim_elem := {|
  drv_install := fun b => (Val tt, b);
  drv_chrome := fun b => (Val tt, b);
  drv_get := fun _ b =>
    match f with
    | DeadSite => (Exn WebDriverException, b)
    | _ => (Val tt, 1%nat)
    end;
  drv_find_element := fun xpath b =>
    match f with
    | NoFilters =>
        if String.eqb xpath season_dropdown_xpath
        then (Exn NoSuchElementException, b) else find_element s xpath b
    | NoPager =>
        if String.eqb xpath next_button_xpath || String.eqb xpath next_button_by_label
        then (Exn NoSuchElementException, b) else find_element s xpath b
    | _ => find_element s xpath b
    end;
  drv_select := select;
  drv_select_by_visible_text := fun e text b =>
    match f, e with
    | MissingOption, EPager => (Exn NoSuchElementException, b)
    | _, _ => select_by_visible_text s e text b
    end;
  drv_first_selected_option := first_selected_option;
  drv_text := fun e b =>
    match f with
    | WordyPage => (Val "one", b)
    | _ => text e b
    end;
  drv_options := options s;
  drv_get_attribute := fun e name b =>
    match f with
    | Classless => (Val None, b)
    | Endless => (Val (Some "Pagination_button"), b)
    | _ => get_attribute s e name b
    end;
  drv_click := fun e b =>
    match f with
    | StaleClick => (Exn WebDriverException, b)
    | _ => click s e b
    end;
  drv_page_source := fun b =>
    match f with
    | Endless => (Val page1, b)
    | _ => page_source s b
    end;
  drv_quit := fun b =>
    match f with
    | StuckQuit => (Exn WebDriverException, b)
    | _ => (Val tt, b)
    end
|}.

(** One page that holds no table. *)
Definition bare_site : site :=
  {| site_pages := [[NTag "html" [NTag "body" [NTag "p" [NText "No data"]]]]];
     site_pager := Button; site_intercept := None |}.

(** The browser shows page [k] of the two of [button_site]. *)
Definition on_page (k b : nat) : Prop := b = k /\ (1 <= k <= 2)%nat.

Definition page_number (k : nat) : list node := nth (k - 1) [page1; page2] [].


(** The cells of [row1] followed by two more. *)
Definition row_wide : node :=
  data_row ["2024-01-10"; "J. Doe"; "LAL"; "BOS"; "31"; "7"; "4"; "2"; "1"].


(** Stand-ins for the collaborators of [main]: logging that is set up, a
    configuration that is loaded, a transformation that keeps the records
    and a load that stores nothing. *)
Definition main_on (f : fault) (s : site) (fuel : nat)
  : outcome unit * world nat sim_elem :=
  main (D := faulty_driver f s) (ret tt) (ret other_config)
       (fun raw_data => ret raw_data) (fun _ _ => ret tt) fuel start.

End SimMore.

(** * Properties *)

(** ** Integer literals *)






(** ** The dictionary display *)

Lemma int_or_0_empty : int_or_0 "" = Val 0.
Proof. reflexivity. Qed.

Lemma int_or_0_nonempty (text : string) :
  text <> "" ->
  int_or_0 text = match Text.python_int text with
                  | Some z => Val z
                  | None => Exn ValueError
                  end.
Proof. intros Hne. unfold int_or_0. destruct text; [congruence | reflexivity]. Qed.

Lemma int_or_0_unparseable (text : string) :
  unparseable text -> int_or_0 text = Exn ValueError.
Proof.
  intros [Hne Hnone]. rewrite int_or_0_nonempty by done. by rewrite Hnone.
Qed.

Lemma int_or_0_val (text : string) (z : Z) :
  int_or_0 text = Val z -> text <> "" -> Text.python_int text = Some z.
Proof.
  intros Hz Hne. rewrite int_or_0_nonempty in Hz by done.
  destruct (Text.python_int text); congruence.
Qed.

Lemma int_or_0_parseable (text : string) :
  ~ unparseable text -> exists z, int_or_0 text = Val z.
Proof.
  intros Hn. destruct (decide (text = "")) as [->|Hne]; [by exists 0|].
  rewrite int_or_0_nonempty by done.
  destruct (Text.python_int text) as [z|] eqn:Ez; [by exists z|].
  exfalso. apply Hn. by split.
Qed.

Lemma int_or_0_exn (text : string) (e : exn) :
  int_or_0 text = Exn e -> e = ValueError.
Proof.
  unfold int_or_0. destruct (Soup.nonempty text); [|discriminate].
  destruct (Text.python_int text); [discriminate|]. congruence.
Qed.

Lemma make_record_seven (c0 c1 c2 c3 c4 c5 c6 : node) (rest : list node) :
  make_record (c0 :: c1 :: c2 :: c3 :: c4 :: c5 :: c6 :: rest) =
    (points ← int_or_0 (Soup.get_text_strip c4);
     rebounds ← int_or_0 (Soup.get_text_strip c5);
     assists ← int_or_0 (Soup.get_text_strip c6);
     Val (the_record c0 c1 c2 c3 points rebounds assists)).
Proof. reflexivity. Qed.

Lemma make_record_exn (columns : list node) (e : exn) :
  make_record columns = Exn e -> e = IndexError \/ e = ValueError.
Proof.
  unfold make_record, index, mbind, py_bind.
  do 4 (destruct columns as [|? columns]; simpl; [intros [= <-]; auto|]).
  destruct columns as [|c4 columns]; simpl; [intros [= <-]; auto|].
  destruct (int_or_0 (Soup.get_text_strip c4)) eqn:E4;
    [|intros [= <-]; right; eauto using int_or_0_exn].
  destruct columns as [|c5 columns]; simpl; [intros [= <-]; auto|].
  destruct (int_or_0 (Soup.get_text_strip c5)) eqn:E5;
    [|intros [= <-]; right; eauto using int_or_0_exn].
  destruct columns as [|c6 columns]; simpl; [intros [= <-]; auto|].
  destruct (int_or_0 (Soup.get_text_strip c6)) eqn:E6;
    [discriminate|intros [= <-]; right; eauto using int_or_0_exn].
Qed.

Lemma make_record_short (columns : list node) :
  (length columns < 7)%nat -> exists e, make_record columns = Exn e.
Proof.
  intros Hlen. unfold make_record, index, mbind, py_bind.
  do 4 (destruct columns as [|? columns]; simpl; [eauto|]).
  destruct columns as [|c4 columns]; simpl; [eauto|].
  destruct (int_or_0 (Soup.get_text_strip c4)); [|eauto].
  destruct columns as [|c5 columns]; simpl; [eauto|].
  destruct (int_or_0 (Soup.get_text_strip c5)); [|eauto].
  destruct columns as [|c6 columns]; simpl; [eauto|].
  simpl in Hlen. lia.
Qed.

Lemma make_record_val (columns : list node) (r : record) :
  make_record columns = Val r ->
  exists c0 c1 c2 c3 c4 c5 c6 rest points rebounds assists,
    columns = c0 :: c1 :: c2 :: c3 :: c4 :: c5 :: c6 :: rest
    /\ int_or_0 (Soup.get_text_strip c4) = Val points
    /\ int_or_0 (Soup.get_text_strip c5) = Val rebounds
    /\ int_or_0 (Soup.get_text_strip c6) = Val assists
    /\ r = the_record c0 c1 c2 c3 points rebounds assists.
Proof.
  intros Hr.
  destruct (decide (length columns < 7)%nat) as [Hlt|Hge].
  { destruct (make_record_short _ Hlt) as [e He]. congruence. }
  do 7 (destruct columns as [|? columns]; [simpl in Hge; lia|]).
  rewrite make_record_seven in Hr. unfold mbind, py_bind in Hr.
  destruct (int_or_0 (Soup.get_text_strip n3)) as [p|] eqn:E4; [|discriminate].
  destruct (int_or_0 (Soup.get_text_strip n4)) as [rb|] eqn:E5; [|discriminate].
  destruct (int_or_0 (Soup.get_text_strip n5)) as [a|] eqn:E6; [|discriminate].
  injection Hr as <-. repeat eexists; eauto.
Qed.

Lemma the_record_shape (c0 c1 c2 c3 : node) (p rb a : Z) :
  record_shape (the_record c0 c1 c2 c3 p rb a).
Proof.
  unfold record_shape, the_record. split; [|split].
  - rewrite !dom_insert_L, dom_empty_L. simpl. set_solver.
  - unfold text_keys. repeat constructor; eexists; simplify_map_eq; reflexivity.
  - unfold number_keys. repeat constructor; eexists; simplify_map_eq; reflexivity.
Qed.

Lemma make_record_shape (columns : list node) (r : record) :
  make_record columns = Val r -> record_shape r.
Proof.
  intros Hr. apply make_record_val in Hr.
  destruct Hr as (c0 & c1 & c2 & c3 & c4 & c5 & c6 & rest & p & rb & a & _ & _ & _ & _ & ->).
  apply the_record_shape.
Qed.

(** ** Rows and pages *)

Section Rows.

Context {B elem : Type} `{D : Driver B elem}.

Implicit Types (w : world B elem) (d : list record).

Lemma world_log_nil w : World (browser w) (calls w) (log w ++ []) = w.
Proof. destruct w; simpl. by rewrite app_nil_r. Qed.

Lemma parse_row_run (row : node) d w :
  parse_row row d w =
    (Ok (d ++ row_records row),
     World (browser w) (calls w) (log w ++ row_log row)).
Proof.
  unfold parse_row, row_records, row_log, row_columns.
  destruct (Soup.find_all "td" (Soup.children row)) as [|c cs] eqn:Ecols.
  - unfold ret. by rewrite app_nil_r, world_log_nil.
  - unfold try_except, bind, lift, ret, logging.
    destruct (make_record (c :: cs)) as [r|e] eqn:Er; simpl.
    + by rewrite world_log_nil.
    + destruct (make_record_exn _ _ Er) as [-> | ->]; simpl;
        by rewrite app_nil_r.
Qed.

Lemma parse_rows_run (rows : list node) d w :
  parse_rows rows d w =
    (Ok (d ++ flat_map row_records rows),
     World (browser w) (calls w) (log w ++ flat_map row_log rows)).
Proof.
  revert d w. induction rows as [|row rows IH]; intros d w; simpl.
  - unfold ret. by rewrite app_nil_r, world_log_nil.
  - unfold bind. rewrite parse_row_run, IH. simpl.
    by rewrite <- !app_assoc.
Qed.

Lemma parsing_page_run (soup : list node) d w :
  parsing_page soup d w =
    (Ok (bool_decide (Soup.find "table" soup <> None), d ++ page_records soup),
     World (browser w) (calls w) (log w ++ page_log soup)).
Proof.
  unfold parsing_page, page_records, page_log, page_rows.
  destruct (Soup.find "table" soup) as [t|].
  - unfold bind. rewrite parse_rows_run. unfold ret. reflexivity.
  - unfold bind, logging, ret. simpl. by rewrite app_nil_r.
Qed.

End Rows.

Section RowClaims.

Context {B elem : Type} `{D : Driver B elem}.

Implicit Types (w : world B elem) (d : list record).

(** C10.  A table row without any [td] cell (a nested header row, say)
    adds no record and no log entry: the world and the accumulated data
    are as before, so it is not handled as a row that failed to parse, and
    the loop goes on with the next row. *)
Theorem row_without_cells_skipped (row : node) (rest : list node) d w :
  row_columns row = [] ->
  parse_row row d w = (Ok d, w)
  /\ row_records row = []
  /\ parse_rows (row :: rest) d w = parse_rows rest d w.
Proof.
  intros Hcols.
  assert (Hrow : parse_row row d w = (Ok d, w)).
  { unfold parse_row. fold (row_columns row). by rewrite Hcols. }
  split; [exact Hrow|]. split.
  - unfold row_records. by rewrite Hcols.
  - simpl. unfold bind. by rewrite Hrow.
Qed.

(** C9.  The records a page adds are a function of its markup alone:
    whatever was accumulated before and whatever the world, parsing the
    markup appends [page_records soup]; two parses of one markup, the
    second in the world the first one left, return the same sequence. *)
Theorem parsing_page_idempotent (soup : list node) :
  (forall d w,
      fst (parsing_page soup d w) =
        Ok (bool_decide (Soup.find "table" soup <> None), d ++ page_records soup))
  /\ (forall w,
         fst (parsing_page soup [] (snd (parsing_page soup [] w))) =
           fst (parsing_page soup [] w))
  /\ (forall w w', fst (parsing_page soup [] w) = fst (parsing_page soup [] w')).
Proof.
  assert (Hrun : forall d w,
             fst (parsing_page soup d w) =
               Ok (bool_decide (Soup.find "table" soup <> None), d ++ page_records soup)).
  { intros d w. by rewrite parsing_page_run. }
  split; [exact Hrun|]. split; intros; by rewrite !Hrun.
Qed.

(** C3.  A row either adds one complete record (all seven cells were there
    and the three numbers parsed) or adds nothing; it never raises.  A row
    with fewer than seven cells, or with an unparseable numeric cell among
    its first seven, adds nothing. *)
Theorem no_partial_record (row : node) d w :
  ((exists w', parse_row row d w = (Ok d, w') /\ row_records row = [])
   \/ (exists r w',
          parse_row row d w = (Ok (d ++ [r]), w')
          /\ make_record (row_columns row) = Val r
          /\ record_shape r
          /\ (7 <= length (row_columns row))%nat))
  /\ ((length (row_columns row) < 7)%nat ->
      exists w', parse_row row d w = (Ok d, w') /\ row_records row = [])
  /\ (forall e, make_record (row_columns row) = Exn e ->
      exists w', parse_row row d w = (Ok d, w') /\ row_records row = []).
Proof.
  assert (Hexn : forall e, make_record (row_columns row) = Exn e -> row_records row = []).
  { intros e He. unfold row_records.
    destruct (row_columns row); [reflexivity|]. by rewrite He. }
  assert (Hdrop : row_records row = [] ->
                  exists w', parse_row row d w = (Ok d, w') /\ row_records row = []).
  { intros Hnil. rewrite parse_row_run, Hnil, app_nil_r. eauto. }
  split; [|split].
  - destruct (row_columns row) as [|c cs] eqn:Ecols.
    { left. apply Hdrop. unfold row_records. by rewrite Ecols. }
    destruct (make_record (c :: cs)) as [r|e] eqn:Er.
    + right. exists r. eexists. split; [|split; [reflexivity|split]].
      * rewrite parse_row_run. unfold row_records. rewrite Ecols, Er. reflexivity.
      * by eapply make_record_shape.
      * apply make_record_val in Er.
        destruct Er as (? & ? & ? & ? & ? & ? & ? & ? & ? & ? & ? & -> & _).
        simpl. lia.
    + left. apply Hdrop. unfold row_records. by rewrite Ecols, Er.
  - intros Hlt. destruct (make_record_short _ Hlt) as [e He]. eauto.
  - intros e He. eauto.
Qed.

(** C2.  In a row of seven cells or more, a numeric field of the record is
    the default 0 when the trimmed text of its cell is empty and the value
    [int] gives to that text otherwise; a non-empty text that [int] rejects
    in any of the three cells drops the whole row with a warning; and when
    no cell is of that kind the row is kept. *)
Theorem numeric_default_and_drop (row c0 c1 c2 c3 c4 c5 c6 : node) (rest : list node) d w :
  row_columns row = c0 :: c1 :: c2 :: c3 :: c4 :: c5 :: c6 :: rest ->
  let t4 := Soup.get_text_strip c4 in
  let t5 := Soup.get_text_strip c5 in
  let t6 := Soup.get_text_strip c6 in
  (forall r, make_record (row_columns row) = Val r ->
     numeric_field r "points" t4 /\ numeric_field r "rebounds" t5
     /\ numeric_field r "assists" t6)
  /\ (unparseable t4 \/ unparseable t5 \/ unparseable t6 ->
      make_record (row_columns row) = Exn ValueError
      /\ parse_row row d w =
           (Ok d, World (browser w) (calls w)
                    (log w ++ [WARNING "Error parsing row data: ValueError"])))
  /\ (~ unparseable t4 -> ~ unparseable t5 -> ~ unparseable t6 ->
      exists r, make_record (row_columns row) = Val r
                /\ parse_row row d w = (Ok (d ++ [r]), w)).
Proof.
  intros Hcols t4 t5 t6. subst t4 t5 t6.
  assert (Hfield : forall p rb a k t z,
             the_record c0 c1 c2 c3 p rb a !! k = Some (VInt z) ->
             int_or_0 t = Val z ->
             numeric_field (the_record c0 c1 c2 c3 p rb a) k t).
  { intros ? ? ? k t z Hk Hz. split.
    - intros ->. rewrite Hk. rewrite int_or_0_empty in Hz. congruence.
    - intros Hne. exists z. split; [|exact Hk]. by apply int_or_0_val. }
  split; [|split].
  - intros r Hr. apply make_record_val in Hr.
    destruct Hr as (? & ? & ? & ? & ? & ? & ? & ? & p & rb & a & Heq & E4 & E5 & E6 & ->).
    rewrite Hcols in Heq. injection Heq as <- <- <- <- <- <- <- <-.
    split; [|split]; eapply Hfield; eauto; unfold the_record; by simplify_map_eq.
  - intros Hbad.
    assert (Hexn : make_record (row_columns row) = Exn ValueError).
    { rewrite Hcols, make_record_seven. unfold mbind, py_bind.
      destruct (int_or_0 (Soup.get_text_strip c4)) as [p|e4] eqn:E4;
        [|by rewrite (int_or_0_exn _ _ E4)].
      destruct (int_or_0 (Soup.get_text_strip c5)) as [rb|e5] eqn:E5;
        [|by rewrite (int_or_0_exn _ _ E5)].
      destruct (int_or_0 (Soup.get_text_strip c6)) as [a|e6] eqn:E6;
        [|by rewrite (int_or_0_exn _ _ E6)].
      destruct Hbad as [Hb|[Hb|Hb]]; apply int_or_0_unparseable in Hb; congruence. }
    split; [exact Hexn|].
    rewrite parse_row_run. unfold row_records, row_log.
    rewrite Hcols in Hexn |- *. rewrite Hexn. simpl. by rewrite app_nil_r.
  - intros H4 H5 H6.
    apply int_or_0_parseable in H4 as [p E4].
    apply int_or_0_parseable in H5 as [rb E5].
    apply int_or_0_parseable in H6 as [a E6].
    assert (Hval : make_record (row_columns row) = Val (the_record c0 c1 c2 c3 p rb a)).
    { rewrite Hcols, make_record_seven. unfold mbind, py_bind.
      by rewrite E4, E5, E6. }
    eexists. split; [exact Hval|].
    rewrite parse_row_run. unfold row_records, row_log.
    rewrite Hcols in Hval |- *. rewrite Hval. simpl.
    by rewrite world_log_nil.
Qed.

End RowClaims.

(** ** The trace of the body: no [quit] before the [finally] clause *)

Section Trace.

Context {B elem : Type} `{D : Driver B elem}.

Local Abbreviation M := (@M B elem).

Implicit Types (w : world B elem) (d : list record).

Lemma quiet_ret {A} (a : A) : quiet (ret a : M A).
Proof. intros w r w' [= <- <-]. exists []. by rewrite app_nil_r. Qed.

Lemma quiet_raise {A} (e : exn) : quiet (raise e : M A).
Proof. intros w r w' [= <- <-]. exists []. by rewrite app_nil_r. Qed.

Lemma quiet_diverge {A} : quiet (diverge : M A).
Proof. intros w r w' [= <- <-]. exists []. by rewrite app_nil_r. Qed.

Lemma quiet_lift {A} (x : py A) : quiet (lift x : M A).
Proof. intros w r w' [= <- <-]. exists []. by rewrite app_nil_r. Qed.

Lemma quiet_logging (l : log_entry) : quiet (logging l : M unit).
Proof. intros w r w' [= <- <-]. exists []. simpl. by rewrite app_nil_r. Qed.

Lemma quiet_sleep (n : nat) : quiet (sleep n : M unit).
Proof. intros w r w' [= <- <-]. exists [CSleep n]. simpl. by repeat constructor. Qed.

Lemma quiet_invoke {A} (c : call elem) (op : B -> py A * B) :
  is_quit c = false -> quiet (invoke c op).
Proof.
  intros Hc w r w'. unfold invoke. destruct (op (browser w)) as [x b].
  intros [= <- <-]. exists [c]. simpl. by repeat constructor.
Qed.

Lemma quiet_bind {A C} (m : M A) (k : A -> M C) :
  quiet m -> (forall a, quiet (k a)) -> quiet (bind m k).
Proof.
  intros Hm Hk w r w'. unfold bind.
  destruct (m w) as [[a|e|] w1] eqn:Em; destruct (Hm _ _ _ Em) as (l1 & E1 & F1).
  - intros Ek. destruct (Hk a _ _ _ Ek) as (l2 & E2 & F2).
    exists (l1 ++ l2). rewrite E2, E1, app_assoc. split; [done|]. by apply Forall_app.
  - intros [= <- <-]. eauto.
  - intros [= <- <-]. eauto.
Qed.

Lemma quiet_try_except {A} (body : M A) (handler : exn -> option (M A)) :
  quiet body -> (forall e h, handler e = Some h -> quiet h) ->
  quiet (try_except body handler).
Proof.
  intros Hb Hh w r w'. unfold try_except.
  destruct (body w) as [[a|e|] w1] eqn:Eb; destruct (Hb _ _ _ Eb) as (l1 & E1 & F1).
  - intros [= <- <-]. eauto.
  - destruct (handler e) as [h|] eqn:Eh.
    + intros Ek. destruct (Hh _ _ Eh _ _ _ Ek) as (l2 & E2 & F2).
      exists (l1 ++ l2). rewrite E2, E1, app_assoc. split; [done|]. by apply Forall_app.
    + intros [= <- <-]. eauto.
  - intros [= <- <-]. eauto.
Qed.

End Trace.

Create HintDb trace discriminated.

#[export] Hint Resolve quiet_ret quiet_raise quiet_diverge quiet_lift
  quiet_logging quiet_sleep : trace.

Ltac quiet_step :=
  first
    [ solve [auto with trace]
    | apply quiet_invoke; reflexivity
    | apply quiet_bind; [|intros ?]
    | match goal with
      | |- quiet (if ?b then _ else _) => destruct b
      | |- quiet (match ?x with _ => _ end) => destruct x
      end ].

Ltac quiet_handler :=
  let e := fresh "e" in
  let h := fresh "h" in
  let Hh := fresh "Hh" in
  intros e h Hh; destruct e; simpl in Hh; try discriminate Hh;
  injection Hh as <-; repeat quiet_step.

Section TraceOfBody.

Context {B elem : Type} `{D : Driver B elem}.

Local Abbreviation M := (@M B elem).

Implicit Types (w : world B elem) (d : list record).

Lemma quiet_parse_rows (rows : list node) d : quiet (parse_rows rows d : M _).
Proof.
  intros w r w'. rewrite parse_rows_run. intros [= <- <-].
  exists []. simpl. by rewrite app_nil_r.
Qed.

Lemma quiet_parsing_page (soup : list node) d : quiet (parsing_page soup d : M _).
Proof.
  intros w r w'. rewrite parsing_page_run. intros [= <- <-].
  exists []. simpl. by rewrite app_nil_r.
Qed.

Lemma quiet_click_next : quiet click_next.
Proof.
  unfold click_next. apply quiet_try_except; [repeat quiet_step|quiet_handler].
Qed.

Lemma quiet_select_next_page : quiet select_next_page.
Proof. unfold select_next_page. repeat quiet_step. Qed.

Lemma quiet_deciding_advance : quiet deciding_advance.
Proof.
  unfold deciding_advance.
  apply quiet_try_except; [apply quiet_select_next_page|].
  intros e h Hh; destruct e; simpl in Hh; try discriminate Hh;
    injection Hh as <-; repeat quiet_step; apply quiet_click_next.
Qed.

Lemma quiet_page_iteration d : quiet (page_iteration d).
Proof.
  unfold page_iteration. apply quiet_bind; [apply quiet_invoke; reflexivity|].
  intros soup. apply quiet_bind; [apply quiet_parsing_page|].
  intros [[] d']; repeat quiet_step. apply quiet_deciding_advance.
Qed.

Lemma quiet_pagination (fuel : nat) d : quiet (pagination fuel d).
Proof.
  revert d. induction fuel as [|fuel IH]; intros d; simpl; [auto with trace|].
  apply quiet_bind; [apply quiet_page_iteration|].
  intros [[] d']; [apply IH|auto with trace].
Qed.

Lemma quiet_select_filter (xpath text selected not_found failed : string) :
  quiet (select_filter xpath text selected not_found failed).
Proof.
  unfold select_filter. apply quiet_try_except; [repeat quiet_step|quiet_handler].
Qed.

Lemma quiet_open_context (config : Config) (season : string) :
  quiet (open_context config season).
Proof.
  unfold open_context, select_season, select_season_type.
  apply quiet_bind; [auto with trace|]. intros _.
  apply quiet_bind; [apply quiet_select_filter|].
  intros []; [apply quiet_select_filter|auto with trace].
Qed.

Lemma quiet_season_context (fuel : nat) (config : Config) (season : string) d :
  quiet (season_context fuel config season d).
Proof.
  unfold season_context. apply quiet_bind; [apply quiet_open_context|].
  intros []; [apply quiet_pagination|auto with trace].
Qed.

Lemma quiet_for_seasons (fuel : nat) (config : Config) (seasons : list string) d :
  quiet (for_seasons fuel config seasons d).
Proof.
  revert d. induction seasons as [|season rest IH]; intros d; simpl;
    [auto with trace|].
  apply quiet_bind; [apply quiet_season_context|]. intros d'. apply IH.
Qed.

End TraceOfBody.

(** ** The session *)

Section Session.

Context {B elem : Type} `{D : Driver B elem}.

Local Abbreviation M := (@M B elem).

Implicit Types (w : world B elem) (d : list record).

Lemma filter_quit_quiet (l : list (call elem)) :
  Forall (fun c => is_quit c = false) l -> List.filter is_quit l = [].
Proof.
  induction 1 as [|c l Hc _ IH]; [reflexivity|]. simpl. by rewrite Hc.
Qed.

Lemma calls_since_app w w' (l : list (call elem)) :
  calls w' = calls w ++ l -> calls_since w w' = l.
Proof. unfold calls_since. intros ->. apply drop_app_length. Qed.

Lemma quiet_session_body (fuel : nat) (config : Config) :
  quiet (session_body fuel config).
Proof. unfold session_body. repeat quiet_step. apply quiet_for_seasons. Qed.

(** The [try] ... [finally] statement: when its body ends, the trace is
    that of the body, without a [quit], followed by one [quit]. *)
Lemma scrape_session_trace (fuel : nat) (config : Config) w r w' :
  scrape_session fuel config w = (r, w') ->
  r <> Diverge ->
  exists l, calls w' = calls w ++ l ++ [CQuit]
            /\ Forall (fun c => is_quit c = false) l.
Proof.
  unfold scrape_session, try_finally.
  destruct (session_body fuel config w) as [r1 w1] eqn:Ebody.
  destruct (quiet_session_body _ _ _ _ _ Ebody) as (l & El & Fl).
  unfold session_end, bind, invoke, logging.
  destruct (drv_quit (browser w1)) as [[[]|e] b'];
    destruct r1; simpl; intros [= <- <-]; intros Hr; try congruence;
    exists l; simpl; by rewrite El, <- app_assoc.
Qed.

Lemma scrape_nba_stats_trace (fuel : nat) (config : Config) w r w' :
  scrape_nba_stats fuel config w = (r, w') ->
  r <> Diverge ->
  exists l, Forall (fun c => is_quit c = false) l
            /\ calls w' = calls w ++ l ++ (if acquires w then [CQuit] else []).
Proof.
  unfold scrape_nba_stats, acquires.
  unfold bind at 1, invoke at 1.
  destruct (drv_install (browser w)) as [[[]|e] b1]; simpl.
  2:{ intros [= <- <-] _. exists [CInstall]. by repeat constructor. }
  unfold bind at 1, invoke at 1. simpl.
  destruct (drv_chrome b1) as [[[]|e] b2]; simpl.
  2:{ intros [= <- <-] _. exists [CInstall; CChrome]. simpl.
      rewrite <- app_assoc. by repeat constructor. }
  unfold bind at 1.
  destruct (scrape_session fuel hard_config _) as [r1 w1] eqn:Es.
  assert (Hexit : r1 <> Diverge ->
            exists l, Forall (fun c => is_quit c = false) l
                      /\ calls w1 = calls w ++ l ++ [CQuit]).
  { intros Hr. destruct (scrape_session_trace _ _ _ _ _ Es Hr) as (l & El & Fl).
    exists ([CInstall; CChrome] ++ l). simpl in El. split.
    - by repeat constructor.
    - rewrite El. by rewrite <- !app_assoc. }
  destruct r1 as [d|e|]; unfold bind, logging, ret; simpl;
    intros [= <- <-] Hr; try congruence; by apply Hexit.
Qed.

(** C4.  In every run that ends, by a return or by an exception out of
    any step of the navigation or the extraction, [driver.quit()] is called
    exactly once when the session had been acquired, as the last call of
    the run, and not at all when the acquisition itself raised. *)
Theorem quit_exactly_once (fuel : nat) (config : Config) w :
  ends (fst (scrape_nba_stats fuel config w)) = true ->
  quits w (snd (scrape_nba_stats fuel config w)) = (if acquires w then 1 else 0)%nat
  /\ (acquires w = true ->
      last (calls (snd (scrape_nba_stats fuel config w))) = Some CQuit).
Proof.
  destruct (scrape_nba_stats fuel config w) as [r w'] eqn:Erun. simpl.
  intros Hends. assert (Hr : r <> Diverge) by (by intros ->).
  destruct (scrape_nba_stats_trace _ _ _ _ _ Erun Hr) as (l & Fl & El).
  unfold quits. rewrite (calls_since_app _ _ _ El), List.filter_app.
  rewrite (filter_quit_quiet _ Fl). split.
  - by destruct (acquires w).
  - intros Ha. rewrite El, Ha, app_assoc. apply last_snoc.
Qed.

End Session.

(** ** The accumulated data only grows, by records of the documented shape *)

Section Data.

Context {B elem : Type} `{D : Driver B elem}.

Local Abbreviation M := (@M B elem).

Implicit Types (w : world B elem) (d : list record).

Lemma row_records_shape (row : node) : Forall record_shape (row_records row).
Proof.
  unfold row_records. destruct (row_columns row) as [|c cs]; [constructor|].
  destruct (make_record (c :: cs)) as [r|e] eqn:Er; [|constructor].
  constructor; [by eapply make_record_shape|constructor].
Qed.

Lemma page_records_shape (soup : list node) : Forall record_shape (page_records soup).
Proof.
  unfold page_records. induction (page_rows soup) as [|row rows IH]; simpl;
    [constructor|].
  apply Forall_app. split; [apply row_records_shape|exact IH].
Qed.

(** One turn of the loop appends the records of the page it read. *)
Lemma page_iteration_data d w ctl d' w' :
  page_iteration d w = (Ok (ctl, d'), w') ->
  exists soup b, drv_page_source (browser w) = (Val soup, b)
                 /\ d' = d ++ page_records soup.
Proof.
  unfold page_iteration, bind at 1, invoke at 1.
  destruct (drv_page_source (browser w)) as [[soup|e] b]; simpl; [|discriminate].
  unfold bind at 1.
  rewrite parsing_page_run.
  intros Hrun. exists soup, b. split; [reflexivity|].
  destruct (bool_decide _).
  - unfold bind in Hrun. destruct (deciding_advance _) as [[c| |] w2];
      unfold ret in Hrun; congruence.
  - unfold ret in Hrun. congruence.
Qed.

Lemma appends_page_iteration : appends page_iteration snd.
Proof.
  intros d w [ctl d'] w' Hrun.
  destruct (page_iteration_data _ _ _ _ _ Hrun) as (soup & b & _ & ->).
  exists (page_records soup). split; [reflexivity|apply page_records_shape].
Qed.

Lemma appends_ret : appends (fun d => ret d : M _) id.
Proof. intros d w a w' [= <- <-]. exists []. by rewrite app_nil_r. Qed.

Lemma appends_bind {A} (f : list record -> M A) (data : A -> list record)
    (g : A -> M (list record)) :
  appends f data ->
  (forall a d w d' w', g a w = (Ok d', w') ->
     exists l, d' = data a ++ l /\ Forall record_shape l) ->
  appends (fun d => bind (f d) g) id.
Proof.
  intros Hf Hg d w d' w'. unfold bind.
  destruct (f d w) as [[a|e|] w1] eqn:Ef; try discriminate.
  intros Eg. destruct (Hf _ _ _ _ Ef) as (l1 & E1 & F1).
  destruct (Hg _ d _ _ _ Eg) as (l2 & E2 & F2).
  exists (l1 ++ l2). unfold id. rewrite E2, E1, app_assoc.
  split; [reflexivity|by apply Forall_app].
Qed.

Lemma appends_pagination (fuel : nat) : appends (pagination fuel) id.
Proof.
  induction fuel as [|fuel IH]; simpl.
  - intros d w a w'. discriminate.
  - apply (appends_bind page_iteration snd); [apply appends_page_iteration|].
    intros [[] d1] _ w d' w'; simpl.
    + apply IH.
    + apply appends_ret.
Qed.

Lemma appends_season_context (fuel : nat) (config : Config) (season : string) :
  appends (season_context fuel config season) id.
Proof.
  intros d w d' w'. unfold season_context, bind.
  destruct (open_context config season w) as [[[]|e|] w1]; try discriminate.
  - apply appends_pagination.
  - apply appends_ret.
Qed.

Lemma appends_for_seasons (fuel : nat) (config : Config) (seasons : list string) :
  appends (for_seasons fuel config seasons) id.
Proof.
  induction seasons as [|season rest IH]; simpl.
  - apply appends_ret.
  - apply (appends_bind _ id); [apply appends_season_context|].
    intros d1 _ w d' w'. apply IH.
Qed.

Lemma scrape_session_data (fuel : nat) (config : Config) w d w' :
  scrape_session fuel config w = (Ok d, w') -> Forall record_shape d.
Proof.
  unfold scrape_session, try_finally.
  destruct (session_body fuel config w) as [[d1|e|] w2] eqn:Ebody;
    [|by destruct (session_end w2) as [[[]|?|] ?]|discriminate].
  assert (Hd1 : Forall record_shape d1).
  { revert Ebody. unfold session_body.
    unfold bind at 1. destruct (invoke _ _ w) as [[[]|e|] w1]; try discriminate.
    unfold bind at 1, logging at 1. unfold bind at 1, sleep at 1.
    intros Efor.
    destruct (appends_for_seasons _ _ _ _ _ _ _ Efor) as (l & El & Fl).
    unfold id in El. by rewrite El. }
  destruct (session_end w2) as [[[]|?|] ?]; intros [= <- <-]. exact Hd1.
Qed.

(** C8, as the code has it.  Every record of the sequence that a run
    returns is a mapping with exactly the keys [game_date], [player_name],
    [team], [opponent], [points], [rebounds] and [assists]; the first four
    values are strings and the last three are integers, of either sign. *)
Theorem output_record_shape (fuel : nat) (config : Config) w :
  Forall record_shape (returned (fst (scrape_nba_stats fuel config w))).
Proof.
  destruct (scrape_nba_stats fuel config w) as [[d|e|] w'] eqn:Erun; simpl;
    [|constructor|constructor].
  revert Erun. unfold scrape_nba_stats.
  unfold bind at 1. destruct (invoke CInstall _ w) as [[[]|e|] w1]; try discriminate.
  unfold bind at 1. destruct (invoke CChrome _ w1) as [[[]|e|] w2]; try discriminate.
  unfold bind at 1.
  destruct (scrape_session fuel hard_config w2) as [[d1|e|] w3] eqn:Es;
    try discriminate.
  unfold bind, logging, ret. simpl. intros [= <- <-].
  by eapply scrape_session_data.
Qed.

End Data.

(** ** Running the monad step by step *)

Section Steps.

Context {B elem : Type} `{D : Driver B elem}.

Local Abbreviation M := (@M B elem).

Implicit Types (w : world B elem) (d : list record).

Lemma bind_ok {A C} (m : M A) (k : A -> M C) w a w1 :
  m w = (Ok a, w1) -> bind m k w = k a w1.
Proof. unfold bind. by intros ->. Qed.

Lemma bind_raise {A C} (m : M A) (k : A -> M C) w e w1 :
  m w = (Raise e, w1) -> bind m k w = (Raise e, w1).
Proof. unfold bind. by intros ->. Qed.

Lemma invoke_val {A} (c : call elem) (op : B -> py A * B) w a b :
  op (browser w) = (Val a, b) ->
  invoke c op w = (Ok a, World b (calls w ++ [c]) (log w)).
Proof. unfold invoke. by intros ->. Qed.

Lemma invoke_exn {A} (c : call elem) (op : B -> py A * B) w e b :
  op (browser w) = (Exn e, b) ->
  invoke c op w = (Raise e, World b (calls w ++ [c]) (log w)).
Proof. unfold invoke. by intros ->. Qed.

Lemma try_except_ok {A} (body : M A) (handler : exn -> option (M A)) w a w1 :
  body w = (Ok a, w1) -> try_except body handler w = (Ok a, w1).
Proof. unfold try_except. by intros ->. Qed.

Lemma try_except_caught {A} (body : M A) (handler : exn -> option (M A)) w e w1 h :
  body w = (Raise e, w1) -> handler e = Some h -> try_except body handler w = h w1.
Proof. unfold try_except. by intros -> ->. Qed.

(** [k] turns that go on, then the rest of the loop. *)
Lemma pagination_run_pages (k fuel : nat) d w d1 w1 :
  run_pages k d w = Some (d1, w1) ->
  pagination (k + fuel) d w = pagination fuel d1 w1.
Proof.
  revert d w. induction k as [|k IH]; intros d w; simpl.
  - by intros [= <- <-].
  - unfold bind. destruct (page_iteration d w) as [[[[] d2]|e|] w2]; try discriminate.
    apply IH.
Qed.

Lemma run_pages_data (k : nat) d w d1 w1 :
  run_pages k d w = Some (d1, w1) -> exists l, d1 = d ++ l.
Proof.
  revert d w. induction k as [|k IH]; intros d w; simpl.
  - intros [= <- <-]. exists []. by rewrite app_nil_r.
  - destruct (page_iteration d w) as [[[[] d2]|e|] w2] eqn:Eit; try discriminate.
    intros Hrest. destruct (IH _ _ Hrest) as [l2 ->].
    destruct (page_iteration_data _ _ _ _ _ Eit) as (soup & b & _ & ->).
    eexists. by rewrite <- app_assoc.
Qed.

End Steps.

Ltac step_ok H := erewrite bind_ok by (apply invoke_val; simpl; exact H); simpl.

(** ** The dropdown strategy *)

Section DropdownStrategy.

Context {B elem : Type} `{D : Driver B elem}.
Context (T : nat) (page_dropdown : elem) (shows : nat -> B -> Prop).
Context (site : dropdown_paginated T page_dropdown shows).

Implicit Types (w : world B elem) (d : list record).

(** The advance is decided on page [k]: the next page is selected below
    [T], the loop is left on page [T]. *)
Lemma dropdown_deciding_advance (k : nat) w :
  shows k (browser w) -> (k <= T)%nat ->
  exists w1 opt,
    deciding_advance w = (Ok (if decide (k < T)%nat then Again else Break), w1)
    /\ shows (if decide (k < T)%nat then S k else k) (browser w1)
    /\ calls w1 =
         calls w ++ [CFindElement next_button_xpath; CSelect page_dropdown;
                     CFirstSelectedOption page_dropdown; CText opt;
                     COptions page_dropdown]
                 ++ (if decide (k < T)%nat
                     then [CSelectByVisibleText page_dropdown
                             (Text.str_of_int (Z.of_nat k + 1)); CSleep 3]
                     else [])
    /\ (~ (k < T)%nat -> last (log w1) = Some (INFO "Reached the last page.")).
Proof.
  intros Hk Hle.
  destruct (ds_find _ _ _ site _ _ Hk) as (b1 & E1 & H1).
  destruct (ds_select _ _ _ site _ _ H1) as (b2 & E2 & H2).
  destruct (ds_current _ _ _ site _ _ H2) as (opt & b3 & text & b4 & E3 & E4 & Eint & H4).
  destruct (ds_options _ _ _ site _ _ H4) as (opts & b5 & E5 & Elen & H5).
  unfold deciding_advance, select_next_page.
  destruct (decide (k < T)%nat) as [Hlt|Hge].
  - destruct (ds_advance _ _ _ site _ _ H5 Hlt) as (b6 & E6 & H6).
    eexists. exists opt. split; [|split; [|split]].
    + erewrite try_except_ok; [reflexivity|].
      step_ok E1. step_ok E2. step_ok E3. step_ok E4.
      rewrite Eint. unfold bind at 1, ret at 1.
      step_ok E5. unfold bind at 1, logging at 1.
      rewrite Elen.
      replace (Z.of_nat k <? Z.of_nat T)%Z with true by (symmetry; apply Z.ltb_lt; lia).
      step_ok E6. unfold bind, logging, sleep, ret. simpl. reflexivity.
    + exact H6.
    + simpl. by rewrite <- !app_assoc.
    + intros Hn. contradiction.
  - eexists. exists opt. split; [|split; [|split]].
    + erewrite try_except_ok; [reflexivity|].
      step_ok E1. step_ok E2. step_ok E3. step_ok E4.
      rewrite Eint. unfold bind at 1, ret at 1.
      step_ok E5. unfold bind at 1, logging at 1.
      rewrite Elen.
      replace (Z.of_nat k <? Z.of_nat T)%Z with false by (symmetry; apply Z.ltb_ge; lia).
      unfold bind, logging, ret. simpl. reflexivity.
    + exact H5.
    + simpl. by rewrite <- !app_assoc.
    + intros _. simpl. apply last_snoc.
Qed.

(** One turn of the loop on page [k]. *)
Lemma dropdown_turn (k : nat) d w :
  shows k (browser w) -> (k <= T)%nat ->
  exists soup w1 opt,
    page_iteration d w =
      (Ok (if decide (k < T)%nat then Again else Break, d ++ page_records soup), w1)
    /\ shows (if decide (k < T)%nat then S k else k) (browser w1)
    /\ calls w1 =
         calls w ++ [CPageSource; CFindElement next_button_xpath;
                     CSelect page_dropdown; CFirstSelectedOption page_dropdown;
                     CText opt; COptions page_dropdown]
                 ++ (if decide (k < T)%nat
                     then [CSelectByVisibleText page_dropdown
                             (Text.str_of_int (Z.of_nat k + 1)); CSleep 3]
                     else [])
    /\ (~ (k < T)%nat -> last (log w1) = Some (INFO "Reached the last page.")).
Proof.
  intros Hk Hle.
  destruct (ds_source _ _ _ site _ _ Hk) as (soup & b1 & E1 & Htable & H1).
  unfold page_iteration. step_ok E1.
  erewrite bind_ok by apply parsing_page_run.
  rewrite bool_decide_true by exact Htable.
  match goal with |- context [bind deciding_advance _ ?w0] =>
    destruct (dropdown_deciding_advance k w0 H1 Hle) as (w1 & opt & Erun & Hs & Ecalls & Hlast)
  end.
  exists soup, w1, opt. split; [|split; [|split]].
  - erewrite bind_ok by exact Erun. reflexivity.
  - exact Hs.
  - rewrite Ecalls. simpl. by rewrite <- !app_assoc.
  - exact Hlast.
Qed.

Lemma dropdown_pagination_from (n k fuel : nat) d w :
  (k + n)%nat = T -> shows k (browser w) -> (n < fuel)%nat ->
  exists d' w' l,
    pagination fuel d w = (Ok d', w')
    /\ calls w' = calls w ++ l
    /\ length (List.filter is_page_source l) = S n
    /\ selected_texts l = page_texts k n
    /\ shows T (browser w')
    /\ last (log w') = Some (INFO "Reached the last page.").
Proof.
  revert k fuel d w. induction n as [|n IH]; intros k fuel d w HT Hk Hfuel.
  - destruct fuel as [|fuel]; [lia|].
    destruct (dropdown_turn k d w Hk ltac:(lia)) as (soup & w1 & opt & Erun & Hs & Ec & Hl).
    destruct (decide (k < T)%nat) as [Hlt|Hge]; [lia|].
    assert (k = T) as -> by lia.
    eexists _, w1, _. split; [|split; [exact Ec|]].
    + simpl. erewrite bind_ok by exact Erun. reflexivity.
    + repeat split; auto.
  - destruct fuel as [|fuel]; [lia|].
    destruct (dropdown_turn k d w Hk ltac:(lia)) as (soup & w1 & opt & Erun & Hs & Ec & Hl).
    destruct (decide (k < T)%nat) as [Hlt|Hge]; [|lia].
    destruct (IH (S k) fuel (d ++ page_records soup) w1 ltac:(lia) Hs ltac:(lia))
      as (d' & w' & l & Erest & Ec' & Hvisits & Htexts & HsT & Hlast).
    eexists d', w', _. split; [|split; [|split; [|split; [|split]]]].
    + simpl. erewrite bind_ok by exact Erun. exact Erest.
    + rewrite Ec', Ec, <- app_assoc. reflexivity.
    + rewrite List.filter_app, length_app, Hvisits. reflexivity.
    + unfold selected_texts in *. rewrite List.flat_map_app, Htexts. reflexivity.
    + exact HsT.
    + exact Hlast.
Qed.

(** C5.  On a site that paginates with the page dropdown, a context that
    starts on page 1 of [T] ends: with fuel for [T] turns the loop returns,
    after exactly [T] ParsingPage states (reads of the page source); from
    each page but the last it selects the number of the next one, by its
    text, and it leaves the loop on page [T], where current and total
    agree. *)
Theorem dropdown_visits_every_page (fuel : nat) d w :
  shows 1%nat (browser w) -> (1 <= T)%nat -> (T <= fuel)%nat ->
  exists d' w',
    pagination fuel d w = (Ok d', w')
    /\ page_visits w w' = T
    /\ selected_texts (calls_since w w') = page_texts 1 (T - 1)
    /\ shows T (browser w')
    /\ last (log w') = Some (INFO "Reached the last page.").
Proof.
  intros H1 HT Hfuel.
  destruct (dropdown_pagination_from (T - 1) 1 fuel d w ltac:(lia) H1 ltac:(lia))
    as (d' & w' & l & Erun & Ec & Hvisits & Htexts & Hs & Hlast).
  exists d', w'. unfold page_visits.
  rewrite (calls_since_app _ _ _ Ec). repeat split; auto. lia.
Qed.

End DropdownStrategy.

(** ** The button strategy *)

Section ButtonStrategy.

Context {B elem : Type} `{D : Driver B elem}.

Implicit Types (w : world B elem) (d : list record).

Lemma deciding_advance_next w next_button cls b2 b3 b :
  drv_find_element next_button_xpath (browser w) = (Exn NoSuchElementException, b2) ->
  drv_find_element next_button_by_label b2 = (Val next_button, b3) ->
  drv_get_attribute next_button "class" b3 = (Val (Some cls), b) ->
  let w1 := World b (calls w ++ [CFindElement next_button_xpath;
                                 CFindElement next_button_by_label;
                                 CGetAttribute next_button "class"])
                  (log w ++ [not_found_msg]) in
  deciding_advance w =
    if Text.contains "disabled" cls then
      (Ok Break, World b (calls w1)
                   (log w1 ++ [INFO "Next button is disabled. Ending pagination."]))
    else
      match drv_click next_button b with
      | (Val _, b') =>
          (Ok Again, World b' (calls w1 ++ [CClick next_button; CSleep 3])
                       (log w1 ++ [INFO "Clicked Next button."]))
      | (Exn NoSuchElementException, b') =>
          (Ok Break, World b' (calls w1 ++ [CClick next_button])
                       (log w1 ++ [INFO "No Next button found. Ending pagination."]))
      | (Exn ElementClickInterceptedException, b') =>
          (Ok Break, World b' (calls w1 ++ [CClick next_button])
                       (log w1 ++ [ERROR "Could not click Next button: ElementClickInterceptedException"]))
      | (Exn e, b') =>
          (Raise e, World b' (calls w1 ++ [CClick next_button]) (log w1))
      end.
Proof.
  intros E2 E3 E4 w1. unfold deciding_advance.
  erewrite try_except_caught;
    [| unfold select_next_page; erewrite bind_raise by (apply invoke_exn; exact E2);
       reflexivity
     | reflexivity].
  unfold bind at 1, logging at 1. simpl.
  unfold click_next, try_except.
  step_ok E3. step_ok E4.
  unfold bind at 1, ret at 1.
  destruct (Text.contains "disabled" cls).
  - unfold bind, logging, ret. simpl. subst w1. simpl. by rewrite <- !app_assoc.
  - unfold bind at 1, invoke at 1. simpl.
    destruct (drv_click next_button b) as [[[]|e] b']; simpl.
    + unfold bind, logging, sleep, ret. simpl. by rewrite <- !app_assoc.
    + destruct e; unfold bind, logging, ret; simpl; by rewrite <- ?app_assoc.
Qed.

(** A turn that meets a disabled Next button leaves the loop. *)
Lemma button_turn_disabled d w soup next_button cls b :
  meets_next w soup next_button cls b ->
  Text.contains "disabled" cls = true ->
  page_iteration d w =
    (Ok (Break, d ++ page_records soup),
     World b (calls w ++ button_probe next_button)
           (log w ++ page_log soup
              ++ [not_found_msg; INFO "Next button is disabled. Ending pagination."])).
Proof.
  intros (b1 & b2 & b3 & E1 & Htable & E2 & E3 & E4) Hdis.
  unfold page_iteration. step_ok E1.
  erewrite bind_ok by apply parsing_page_run.
  rewrite bool_decide_true by exact Htable.
  unfold bind. erewrite deciding_advance_next by (simpl; eassumption).
  rewrite Hdis. unfold ret, button_probe. simpl. by rewrite <- !app_assoc.
Qed.

(** A turn in which the click on the Next button is intercepted leaves the
    loop too, with an error in the log. *)
Lemma button_turn_intercepted d w soup next_button cls b b' :
  meets_next w soup next_button cls b ->
  Text.contains "disabled" cls = false ->
  drv_click next_button b = (Exn ElementClickInterceptedException, b') ->
  page_iteration d w =
    (Ok (Break, d ++ page_records soup),
     World b' (calls w ++ button_probe next_button ++ [CClick next_button])
           (log w ++ page_log soup
              ++ [not_found_msg;
                  ERROR "Could not click Next button: ElementClickInterceptedException"])).
Proof.
  intros (b1 & b2 & b3 & E1 & Htable & E2 & E3 & E4) Hdis Eclick.
  unfold page_iteration. step_ok E1.
  erewrite bind_ok by apply parsing_page_run.
  rewrite bool_decide_true by exact Htable.
  unfold bind. erewrite deciding_advance_next by (simpl; eassumption).
  rewrite Hdis, Eclick. unfold ret, button_probe. simpl. by rewrite <- !app_assoc.
Qed.

(** C6, as the code has it.  When the button strategy finds the Next
    control marked disabled, the context is done at once: the loop returns
    in that very turn with the records of the page just parsed appended
    once, the button is not clicked, and no ParsingPage state follows the
    current one. *)
Theorem disabled_next_ends_context (fuel : nat) d w soup next_button cls b :
  meets_next w soup next_button cls b ->
  Text.contains "disabled" cls = true ->
  pagination (S fuel) d w =
    (Ok (d ++ page_records soup),
     World b (calls w ++ button_probe next_button)
           (log w ++ page_log soup
              ++ [not_found_msg; INFO "Next button is disabled. Ending pagination."]))
  /\ page_visits w (snd (pagination (S fuel) d w)) = 1%nat.
Proof.
  intros Hmeets Hdis.
  assert (Erun : pagination (S fuel) d w =
    (Ok (d ++ page_records soup),
     World b (calls w ++ button_probe next_button)
           (log w ++ page_log soup
              ++ [not_found_msg; INFO "Next button is disabled. Ending pagination."]))).
  { pose proof (button_turn_disabled d w _ _ _ _ Hmeets Hdis) as Eturn.
    simpl. erewrite bind_ok by exact Eturn. reflexivity. }
  split; [exact Erun|]. rewrite Erun. unfold page_visits.
  by erewrite calls_since_app by reflexivity.
Qed.

(** C7.  A context is open for [season] and has gone through [k] turns of
    its loop when the click on the Next control is intercepted.  Then the
    context ends without an exception: what was accumulated before the
    season ([d0], a prefix of [d]) and in it is kept as it was, the records
    of the page just parsed are its last addition, an error is logged, and
    the loop over the seasons goes on with the next season of the list. *)
Theorem click_intercepted_aborts_context_only
    (fuel k : nat) (config : Config) (season : string) (rest : list string)
    d0 w0 w1 d w soup next_button cls b b' :
  open_context config season w0 = (Ok true, w1) ->
  run_pages k d0 w1 = Some (d, w) ->
  (k < fuel)%nat ->
  meets_next w soup next_button cls b ->
  Text.contains "disabled" cls = false ->
  drv_click next_button b = (Exn ElementClickInterceptedException, b') ->
  let w' := World b' (calls w ++ button_probe next_button ++ [CClick next_button])
                  (log w ++ page_log soup
                     ++ [not_found_msg;
                         ERROR "Could not click Next button: ElementClickInterceptedException"]) in
  season_context fuel config season d0 w0 = (Ok (d ++ page_records soup), w')
  /\ (exists l, d = d0 ++ l)
  /\ for_seasons fuel config (season :: rest) d0 w0 =
       for_seasons fuel config rest (d ++ page_records soup) w'.
Proof.
  intros Eopen Epages Hfuel Hmeets Hdis Eclick w'.
  assert (Eloop : pagination fuel d0 w1 = (Ok (d ++ page_records soup), w')).
  { replace fuel with (k + S (fuel - S k))%nat by lia.
    rewrite (pagination_run_pages _ _ _ _ _ _ Epages). simpl.
    pose proof (button_turn_intercepted d w _ _ _ _ _ Hmeets Hdis Eclick) as Eturn.
    erewrite bind_ok by exact Eturn. reflexivity. }
  assert (Ectx : season_context fuel config season d0 w0 =
                   (Ok (d ++ page_records soup), w')).
  { unfold season_context. erewrite bind_ok by exact Eopen. exact Eloop. }
  split; [exact Ectx|]. split; [by eapply run_pages_data|].
  simpl. erewrite bind_ok by exact Ectx. reflexivity.
Qed.

End ButtonStrategy.

(** ** Runs on the simulated site *)

Module Runs.
Import Sim SimExtra.

Lemma row_without_cells_skipped_witness :
  row_columns header = []
  /\ parse_row header [] start = (Ok [], start)
  /\ row_records header = []
  /\ parse_rows [header; row1] [] start = parse_rows [row1] [] start.
Proof.
  split; [reflexivity|].
  apply (row_without_cells_skipped header [row1] [] start). reflexivity.
Defined.

Lemma no_partial_record_witness :
  (length (row_columns (data_row ["2024-01-10"; "J. Doe"; "LAL"])) < 7)%nat
  /\ exists w', parse_row (data_row ["2024-01-10"; "J. Doe"; "LAL"]) [] start = (Ok [], w')
                /\ row_records (data_row ["2024-01-10"; "J. Doe"; "LAL"]) = [].
Proof.
  assert (H : (length (row_columns (data_row ["2024-01-10"; "J. Doe"; "LAL"])) < 7)%nat)
    by (vm_compute; lia).
  split; [exact H|].
  exact (proj1 (proj2 (no_partial_record
                         (data_row ["2024-01-10"; "J. Doe"; "LAL"]) [] start)) H).
Defined.

Lemma numeric_default_and_drop_witness :
  (exists r, make_record (row_columns row2) = Val r
             /\ parse_row row2 [] start = (Ok [r], start)
             /\ r !! "points" = Some (VInt 0))
  /\ parse_row (data_row ["2024-01-10"; "J. Doe"; "LAL"; "BOS"; "abc"; "7"; "4"]) [] start
     = (Ok [], World 1%nat [] [WARNING "Error parsing row data: ValueError"]).
Proof.
  split.
  - destruct (numeric_default_and_drop row2
                (td "2024-01-10") (td "A. Roe") (td "BOS") (td "LAL")
                (td "") (td " 12 ") (td "0") [] [] start eq_refl)
      as (Hfields & _ & Hkeep).
    destruct Hkeep as (r & Hr & Hrow).
    + intros [Hne _]. apply Hne. reflexivity.
    + intros [_ Hnone]. vm_compute in Hnone. discriminate.
    + intros [_ Hnone]. vm_compute in Hnone. discriminate.
    + exists r. split; [exact Hr|]. split; [exact Hrow|].
      exact (proj1 (proj1 (Hfields r Hr)) eq_refl).
  - refine (proj2 (proj1 (proj2 (numeric_default_and_drop
              (data_row ["2024-01-10"; "J. Doe"; "LAL"; "BOS"; "abc"; "7"; "4"])
              (td "2024-01-10") (td "J. Doe") (td "LAL") (td "BOS")
              (td "abc") (td "7") (td "4") [] [] start eq_refl)) _)).
    left. split; [discriminate|reflexivity].
Defined.

Lemma quit_exactly_once_witness :
  quits start (snd (scrape_on Sim.dropdown_site 5 hard_config)) = 1%nat
  /\ last (calls (snd (scrape_on Sim.dropdown_site 5 hard_config))) = Some CQuit.
Proof.
  destruct (quit_exactly_once (D := driver Sim.dropdown_site) 5 hard_config start)
    as [Hq Hlast].
  - vm_compute. reflexivity.
  - split; [exact Hq|]. apply Hlast. reflexivity.
Defined.

(** The two-page site of [dropdown_site] honours the dropdown. *)
Lemma sim_dropdown_site :
  dropdown_paginated (D := driver Sim.dropdown_site) 2 EPager shows.
Proof.
  split.
  - intros k b [-> [H1 H2]].
    assert (k = 1 \/ k = 2)%nat as [-> | ->] by lia;
      eexists _, _; (split; [reflexivity|]); (split; [discriminate|]);
      split; [reflexivity|lia|reflexivity|lia].
  - intros k b Hs. exists b. split; [reflexivity|exact Hs].
  - intros k b Hs. exists b. split; [reflexivity|exact Hs].
  - intros k b [-> [H1 H2]].
    assert (k = 1 \/ k = 2)%nat as [-> | ->] by lia;
      eexists _, _, _, _; (split; [reflexivity|]); (split; [reflexivity|]);
      (split; [reflexivity|]); split; [reflexivity|lia|reflexivity|lia].
  - intros k b Hs. eexists _, b. split; [reflexivity|]. split; [reflexivity|exact Hs].
  - intros k b [-> [H1 H2]] Hlt. assert (k = 1)%nat as -> by lia.
    exists 2%nat. split; [reflexivity|]. split; [reflexivity|lia].
Qed.

Lemma dropdown_visits_every_page_witness :
  exists d' w',
    paginate_on Sim.dropdown_site 2 [] start = (Ok d', w')
    /\ page_visits start w' = 2%nat
    /\ selected_texts (calls_since start w') = ["2"]
    /\ shows 2 (browser w')
    /\ last (log w') = Some (INFO "Reached the last page.").
Proof.
  apply (dropdown_visits_every_page (D := driver Sim.dropdown_site)
           2 EPager shows sim_dropdown_site 2 [] start).
  - split; [reflexivity|lia].
  - lia.
  - lia.
Defined.

Lemma single_page_meets_next :
  meets_next (D := driver single_page_site) at_first_page page1 ENext
    "Pagination_button disabled" 1%nat.
Proof.
  exists 1%nat, 1%nat, 1%nat. repeat split; try reflexivity. discriminate.
Qed.

(** On a single page whose Next button is disabled the context parses one
    page, not two. *)
Lemma disabled_next_parses_no_more :
  ~ disabled_next_parses_one_more (D := driver single_page_site).
Proof.
  intros Hclaim.
  specialize (Hclaim 0%nat [] at_first_page page1 ENext
                "Pagination_button disabled" 1%nat
                single_page_meets_next eq_refl).
  vm_compute in Hclaim. discriminate.
Qed.

Lemma disabled_next_ends_context_witness :
  paginate_on single_page_site 1 [] at_first_page =
    (Ok ([] ++ page_records page1),
     World 1%nat ([] ++ button_probe ENext)
           ([] ++ page_log page1
               ++ [not_found_msg; INFO "Next button is disabled. Ending pagination."]))
  /\ page_visits at_first_page (snd (paginate_on single_page_site 1 [] at_first_page))
     = 1%nat.
Proof.
  apply (disabled_next_ends_context (D := driver single_page_site)
           0 [] at_first_page page1 ENext "Pagination_button disabled" 1%nat).
  - exists 1%nat, 1%nat, 1%nat. repeat split; try reflexivity. discriminate.
  - reflexivity.
Defined.

Lemma click_intercepted_aborts_context_only_witness :
  let w1 := snd (open_on overlay_site hard_config "2024-25" start) in
  let w := World 2%nat (calls w1 ++ button_probe ENext ++ [CClick ENext; CSleep 3])
                 (log w1 ++ page_log page1 ++ [not_found_msg; INFO "Clicked Next button."]) in
  let w' := World 2%nat (calls w ++ button_probe ENext ++ [CClick ENext])
                  (log w ++ page_log page2
                     ++ [not_found_msg;
                         ERROR "Could not click Next button: ElementClickInterceptedException"]) in
  seasons_on overlay_site 5 hard_config ["2024-25"; "2023-24"] [] start =
    seasons_on overlay_site 5 hard_config ["2023-24"]
      (page_records page1 ++ page_records page2) w'.
Proof.
  intros w1 w w'.
  refine (proj2 (proj2 (click_intercepted_aborts_context_only
            (D := driver overlay_site) 5 1 hard_config "2024-25" ["2023-24"]
            [] start w1 (page_records page1) w page2 ENext "Pagination_button"
            2%nat 2%nat _ _ _ _ _ _))).
  - reflexivity.
  - reflexivity.
  - lia.
  - exists 2%nat, 2%nat, 2%nat. repeat split; try reflexivity. discriminate.
  - reflexivity.
  - reflexivity.
Defined.

(** A points cell that reads [-3] gives a record with a negative number. *)
Lemma negative_points_in_output :
  ~ Forall record_shape_nonneg (returned (fst (scrape_on minus_site 5 hard_config))).
Proof.
  intros Hclaim.
  assert (Hpoints :
            (r ← head (returned (fst (scrape_on minus_site 5 hard_config)));
             r !! "points") = Some (VInt (-3)))
    by (vm_compute; reflexivity).
  destruct (returned (fst (scrape_on minus_site 5 hard_config))) as [|r rest];
    [discriminate|].
  simpl in Hpoints.
  apply Forall_cons in Hclaim as [(_ & _ & Hnum) _].
  apply Forall_cons in Hnum as [(z & Hz & Hpos) _].
  rewrite Hpoints in Hz. injection Hz as <-. lia.
Qed.

(** The example of the specification: two pages behind the dropdown, three
    data rows and two, give five records. *)
Example two_pages_five_records :
  ends (fst (scrape_on Sim.dropdown_site 5 hard_config)) = true
  /\ length (returned (fst (scrape_on Sim.dropdown_site 5 hard_config))) = 5%nat
  /\ returned (fst (scrape_on Sim.dropdown_site 5 hard_config))
     = page_records page1 ++ page_records page2.
Proof.
  split; [vm_compute; reflexivity|].
  split; [vm_compute; reflexivity|reflexivity].
Qed.

(** The same two pages behind a Next button give the same five records,
    in two ParsingPage states. *)
Example button_pages_five_records :
  returned (fst (scrape_on button_site 5 hard_config))
  = page_records page1 ++ page_records page2
  /\ page_visits start (snd (scrape_on button_site 5 hard_config)) = 2%nat.
Proof. split; [reflexivity|vm_compute; reflexivity]. Qed.

(** C1, on the code.  The dictionary passed to [scrape_nba_stats] is not
    read: two runs that differ only in it are the same run.  With a
    configuration of another address, two seasons and another season type,
    the run goes to the address written in the source, starts one season
    context, and selects the season and the season type of the source. *)
Theorem scrape_ignores_config :
  (forall (B elem : Type) (D : Driver B elem) fuel config config' (w : world B elem),
      scrape_nba_stats fuel config w = scrape_nba_stats fuel config' w)
  /\ let w' := snd (scrape_on Sim.dropdown_site 5 other_config) in
     visited_urls (calls w') = ["https://www.nba.com/stats/players/boxscores"]
     /\ season_runs (log w') = 1%nat
     /\ length (seasons other_config) = 2%nat
     /\ selected_texts (calls w') = ["2024-25"; "Regular Season"; "2"].
Proof.
  split; [reflexivity|]. vm_compute. repeat split.
Qed.

End Runs.

(** * Further properties of the code *)

(** ** Cells and rows *)





Lemma make_record_take (columns : list node) :
  make_record columns = make_record (take 7 columns).
Proof.
  do 7 (destruct columns as [|? columns]; [reflexivity|]). reflexivity.
Qed.

(** X2.  Only the first seven cells of a row are read: two rows that agree
    on their first seven cells add the same record, or are dropped with the
    same warning, whatever cells come after. *)
Theorem cells_after_seventh_ignored (row row' : node) :
  take 7 (row_columns row) = take 7 (row_columns row') ->
  row_records row = row_records row' /\ row_log row = row_log row'.
Proof.
  intros Htake. unfold row_records, row_log.
  pose proof (make_record_take (row_columns row)) as E.
  pose proof (make_record_take (row_columns row')) as E'.
  rewrite Htake in E. rewrite <- E' in E.
  destruct (row_columns row) as [|c cs], (row_columns row') as [|c' cs'];
    try discriminate Htake; [done|].
  by rewrite E.
Qed.

Section MoreRows.

Context {B elem : Type} `{D : Driver B elem}.

Implicit Types (w : world B elem) (d : list record).


(** X4.  Every row handed to the row loop is accounted for exactly once: it
    adds a record, or a warning to the log, or it has no cell at all.  The
    loop returns, makes no call to the driver and leaves the browser as it
    was. *)
Theorem every_row_accounted (rows : list node) d w :
  exists d' w',
    parse_rows rows d w = (Ok d', w')
    /\ browser w' = browser w /\ calls w' = calls w
    /\ (length d' + length (log w') + length (List.filter cell_less rows)
        = length d + length (log w) + length rows)%nat.
Proof.
  rewrite parse_rows_run. eexists _, _. split; [reflexivity|].
  split; [reflexivity|]. split; [reflexivity|]. simpl.
  rewrite !length_app.
  assert (Hrows : (length (flat_map row_records rows)
                   + length (flat_map row_log rows)
                   + length (List.filter cell_less rows) = length rows)%nat).
  { induction rows as [|row rows IH]; [reflexivity|]. simpl.
    rewrite !length_app.
    assert (Hrow : (length (row_records row) + length (row_log row)
                    + (if cell_less row then 1 else 0) = 1)%nat).
    { unfold row_records, row_log, cell_less.
      destruct (row_columns row) as [|c cs]; [reflexivity|].
      by destruct (make_record (c :: cs)). }
    destruct (cell_less row); simpl; lia. }
  lia.
Qed.

End MoreRows.

(** ** The ways a context ends *)

Section Endings.

Context {B elem : Type} `{D : Driver B elem}.

Implicit Types (w : world B elem) (d : list record).

(** An exception out of a turn of the loop leaves the loop over the
    seasons too. *)
Lemma for_seasons_raise (fuel k : nat) (config : Config) (season : string)
    (rest : list string) d0 w0 w1 d w e w' :
  open_context config season w0 = (Ok true, w1) ->
  run_pages k d0 w1 = Some (d, w) ->
  (k < fuel)%nat ->
  page_iteration d w = (Raise e, w') ->
  for_seasons fuel config (season :: rest) d0 w0 = (Raise e, w').
Proof.
  intros Eopen Epages Hfuel Eturn. simpl.
  erewrite bind_raise; [reflexivity|].
  unfold season_context. erewrite bind_ok by exact Eopen.
  replace fuel with (k + S (fuel - S k))%nat by lia.
  rewrite (pagination_run_pages _ _ _ _ _ _ Epages). simpl.
  erewrite bind_raise by exact Eturn. reflexivity.
Qed.

(** X5.  A page without a table ends the context in that turn: nothing is
    added, a warning is logged, and no pagination control is looked up. *)
Theorem no_table_ends_context (fuel : nat) d w soup b :
  drv_page_source (browser w) = (Val soup, b) ->
  Soup.find "table" soup = None ->
  pagination (S fuel) d w =
    (Ok d, World b (calls w ++ [CPageSource])
             (log w ++ [WARNING "No table found on the page."])).
Proof.
  intros Esrc Hnone.
  assert (Eturn : page_iteration d w =
            (Ok (Break, d), World b (calls w ++ [CPageSource])
                              (log w ++ [WARNING "No table found on the page."]))).
  { unfold page_iteration. step_ok Esrc.
    erewrite bind_ok by apply parsing_page_run.
    rewrite bool_decide_false by (by rewrite Hnone; intros ?).
    unfold page_records, page_rows, page_log. rewrite Hnone. simpl.
    unfold ret. by rewrite app_nil_r. }
  simpl. erewrite bind_ok by exact Eturn. reflexivity.
Qed.

(** X6.  When neither the page dropdown nor a Next button is found, the
    records of the page are kept and the context ends without an error. *)
Theorem no_next_button_ends_context (fuel : nat) d w soup b1 b2 b :
  drv_page_source (browser w) = (Val soup, b1) ->
  Soup.find "table" soup <> None ->
  drv_find_element next_button_xpath b1 = (Exn NoSuchElementException, b2) ->
  drv_find_element next_button_by_label b2 = (Exn NoSuchElementException, b) ->
  pagination (S fuel) d w =
    (Ok (d ++ page_records soup),
     World b (calls w ++ [CPageSource; CFindElement next_button_xpath;
                          CFindElement next_button_by_label])
           (log w ++ page_log soup
              ++ [not_found_msg; INFO "No Next button found. Ending pagination."])).
Proof.
  intros Esrc Htable E1 E2.
  assert (Eadv : forall w1, browser w1 = b1 ->
            deciding_advance w1 =
              (Ok Break,
               World b (calls w1 ++ [CFindElement next_button_xpath;
                                     CFindElement next_button_by_label])
                     (log w1 ++ [not_found_msg;
                                 INFO "No Next button found. Ending pagination."]))).
  { intros w1 Hb. unfold deciding_advance.
    erewrite try_except_caught;
      [| unfold select_next_page;
         erewrite bind_raise by (apply invoke_exn; rewrite Hb; exact E1);
         reflexivity
       | reflexivity].
    unfold bind at 1, logging at 1. simpl.
    unfold click_next.
    erewrite try_except_caught;
      [| erewrite bind_raise by (apply invoke_exn; simpl; exact E2); reflexivity
       | reflexivity].
    unfold bind, logging, ret. simpl. by rewrite <- !app_assoc. }
  assert (Eturn : page_iteration d w =
    (Ok (Break, d ++ page_records soup),
     World b (calls w ++ [CPageSource; CFindElement next_button_xpath;
                          CFindElement next_button_by_label])
           (log w ++ page_log soup
              ++ [not_found_msg; INFO "No Next button found. Ending pagination."]))).
  { unfold page_iteration. step_ok Esrc.
    erewrite bind_ok by apply parsing_page_run.
    rewrite bool_decide_true by exact Htable.
    erewrite bind_ok by (apply Eadv; reflexivity).
    unfold ret. simpl. by rewrite <- !app_assoc. }
  simpl. erewrite bind_ok by exact Eturn. reflexivity.
Qed.

(** A turn that meets a Next button without a class attribute raises. *)
Lemma button_turn_classless d w soup next_button b :
  meets_classless_next w soup next_button b ->
  page_iteration d w =
    (Raise TypeError,
     World b (calls w ++ button_probe next_button)
           (log w ++ page_log soup ++ [not_found_msg])).
Proof.
  intros (b1 & b2 & b3 & E1 & Htable & E2 & E3 & E4).
  unfold page_iteration. step_ok E1.
  erewrite bind_ok by apply parsing_page_run.
  rewrite bool_decide_true by exact Htable.
  erewrite bind_raise; [reflexivity|].
  unfold deciding_advance.
  erewrite try_except_caught;
    [| unfold select_next_page; erewrite bind_raise by (apply invoke_exn; exact E2);
       reflexivity
     | reflexivity].
  unfold bind at 1, logging at 1. simpl.
  unfold click_next, try_except.
  step_ok E3. step_ok E4. unfold bind, raise, button_probe. simpl.
  by rewrite <- !app_assoc.
Qed.

(** X7.  A Next button without a [class] attribute makes the membership
    test of line 161 raise [TypeError] inside the handler of the first
    [except] clause, where no clause catches it: the exception leaves the
    pagination and the loop over the seasons, so that the seasons that
    remain are not processed and the accumulated records are not
    returned. *)
Theorem classless_next_button_aborts_run
    (fuel k : nat) (config : Config) (season : string) (rest : list string)
    d0 w0 w1 d w soup next_button b :
  open_context config season w0 = (Ok true, w1) ->
  run_pages k d0 w1 = Some (d, w) ->
  (k < fuel)%nat ->
  meets_classless_next w soup next_button b ->
  for_seasons fuel config (season :: rest) d0 w0 =
    (Raise TypeError,
     World b (calls w ++ button_probe next_button)
           (log w ++ page_log soup ++ [not_found_msg])).
Proof.
  intros Eopen Epages Hfuel Hmeets.
  eapply for_seasons_raise; eauto using button_turn_classless.
Qed.

(** X8.  An error of the click on the Next button other than an
    intercepted click or a missing element is not caught either: it leaves
    the pagination and the loop over the seasons. *)
Theorem click_error_aborts_run
    (fuel k : nat) (config : Config) (season : string) (rest : list string)
    d0 w0 w1 d w soup next_button cls b e b' :
  open_context config season w0 = (Ok true, w1) ->
  run_pages k d0 w1 = Some (d, w) ->
  (k < fuel)%nat ->
  meets_next w soup next_button cls b ->
  Text.contains "disabled" cls = false ->
  drv_click next_button b = (Exn e, b') ->
  e <> NoSuchElementException ->
  e <> ElementClickInterceptedException ->
  for_seasons fuel config (season :: rest) d0 w0 =
    (Raise e,
     World b' (calls w ++ button_probe next_button ++ [CClick next_button])
           (log w ++ page_log soup ++ [not_found_msg])).
Proof.
  intros Eopen Epages Hfuel (b1 & b2 & b3 & E1 & Htable & E2 & E3 & E4) Hdis Eclick Hn1 Hn2.
  eapply for_seasons_raise; eauto.
  unfold page_iteration. step_ok E1.
  erewrite bind_ok by apply parsing_page_run.
  rewrite bool_decide_true by exact Htable.
  unfold bind. erewrite deciding_advance_next by (simpl; eassumption).
  rewrite Hdis, Eclick. unfold button_probe. simpl.
  destruct e; try congruence; simpl; by rewrite <- !app_assoc.
Qed.

End Endings.

(** ** Errors of the page dropdown *)

Section DropdownErrors.

Context {B elem : Type} `{D : Driver B elem}.

Implicit Types (w : world B elem) (d : list record).

(** X9.  When the selected option of the page dropdown does not read as an
    integer, the [ValueError] is caught by the last [except] clause: the
    records of the page are kept, an error is logged, no page is selected
    and the context ends. *)
Theorem unreadable_page_number_ends_context
    (fuel : nat) d w soup page_dropdown opt text b :
  meets_dropdown w soup page_dropdown opt text b ->
  Text.python_int text = None ->
  pagination (S fuel) d w =
    (Ok (d ++ page_records soup),
     World b (calls w ++ dropdown_probe page_dropdown opt)
           (log w ++ page_log soup
              ++ [ERROR "Error handling pagination: ValueError"])).
Proof.
  intros (b1 & b2 & b3 & b4 & E1 & Htable & E2 & E3 & E4 & E5) Hint.
  assert (Eturn : page_iteration d w =
    (Ok (Break, d ++ page_records soup),
     World b (calls w ++ dropdown_probe page_dropdown opt)
           (log w ++ page_log soup
              ++ [ERROR "Error handling pagination: ValueError"]))).
  { unfold page_iteration. step_ok E1.
    erewrite bind_ok by apply parsing_page_run.
    rewrite bool_decide_true by exact Htable.
    erewrite bind_ok; [reflexivity|].
    unfold deciding_advance.
    erewrite try_except_caught;
      [| unfold select_next_page;
         step_ok E2; step_ok E3; step_ok E4; step_ok E5;
         rewrite Hint; unfold bind, raise; reflexivity
       | reflexivity].
    unfold bind, logging, ret, dropdown_probe. simpl.
    by rewrite <- !app_assoc. }
  simpl. erewrite bind_ok by exact Eturn. reflexivity.
Qed.

(** X10.  The button strategy is also the fallback for a dropdown that is
    there: when the text of the next page number is not among its options,
    the [NoSuchElementException] of the selection reaches the first
    [except] clause and the turn goes on with the Next button. *)
Theorem missing_page_option_falls_back_to_button
    d w soup page_dropdown opt text b current options b' b'' :
  meets_dropdown w soup page_dropdown opt text b ->
  Text.python_int text = Some current ->
  drv_options page_dropdown b = (Val options, b') ->
  current < Z.of_nat (length options) ->
  drv_select_by_visible_text page_dropdown (Text.str_of_int (current + 1)) b'
    = (Exn NoSuchElementException, b'') ->
  page_iteration d w =
    bind click_next (fun ctl => ret (ctl, d ++ page_records soup))
      (World b''
         (calls w ++ dropdown_probe page_dropdown opt
            ++ [COptions page_dropdown;
                CSelectByVisibleText page_dropdown (Text.str_of_int (current + 1))])
         (log w ++ page_log soup
            ++ [INFO ("Current Page: " +:+ Text.str_of_int current
                      +:+ " / Total Pages: "
                      +:+ Text.str_of_int (Z.of_nat (length options)));
                not_found_msg])).
Proof.
  intros (b1 & b2 & b3 & b4 & E1 & Htable & E2 & E3 & E4 & E5) Hint Eopts Hlt Esel.
  unfold page_iteration. step_ok E1.
  erewrite bind_ok by apply parsing_page_run.
  rewrite bool_decide_true by exact Htable.
  unfold bind at 1. unfold deciding_advance.
  erewrite try_except_caught;
    [| unfold select_next_page;
       step_ok E2; step_ok E3; step_ok E4; step_ok E5;
       rewrite Hint; unfold bind at 1, ret at 1;
       step_ok Eopts; unfold bind at 1, logging at 1;
       replace (current <? Z.of_nat (length options))%Z with true
         by (symmetry; by apply Z.ltb_lt);
       erewrite bind_raise by (apply invoke_exn; simpl; exact Esel);
       reflexivity
     | reflexivity].
  unfold bind at 1, logging at 1. simpl.
  unfold bind, dropdown_probe. simpl. by rewrite <- !app_assoc.
Qed.

End DropdownErrors.

(** ** The two selections that open a context *)

Section Selections.

Context {B elem : Type} `{D : Driver B elem}.

Local Abbreviation M := (@M B elem).

Implicit Types (w : world B elem) (d : list record).

Lemma select_filter_contained (xpath text selected not_found failed : string) w :
  contained (fst (select_filter xpath text selected not_found failed w)).
Proof.
  unfold select_filter, try_except.
  match goal with |- context [bind ?m ?k w] => destruct (bind m k w) as [[a|e|] w1] eqn:Ebody end.
  - exact I.
  - destruct e; simpl; auto.
  - exfalso. revert Ebody. unfold bind, invoke, logging, sleep, ret.
    repeat match goal with
           | |- context [let '(_, _) := ?x in _] => destruct x as [[?|?] ?]; simpl
           end; discriminate.
Qed.

(** X11.  The two selections never let an [Exception] out and always end:
    whatever the driver raises while the season or the season type is
    selected, the context is opened or skipped. *)
Theorem selection_errors_never_escape (config : Config) (season : string) w :
  contained (fst (open_context config season w)).
Proof.
  unfold open_context, select_season, select_season_type.
  unfold bind at 1, logging at 1. unfold bind.
  match goal with |- context [select_filter ?x ?t ?s ?n ?f ?w0] =>
    pose proof (select_filter_contained x t s n f w0) as H1;
    destruct (select_filter x t s n f w0) as [[[]|e|] w1]
  end; simpl in *; auto.
  apply select_filter_contained.
Qed.

(** X12.  When looking up the season dropdown raises an [Exception], the
    season is skipped: an error is logged, no page is read, the accumulated
    records are as before and the loop goes on with the next season. *)
Theorem missing_season_dropdown_skips_season
    (fuel : nat) (config : Config) (season : string) (rest : list string) d w e b :
  drv_find_element season_dropdown_xpath (browser w) = (Exn e, b) ->
  is_Exception e = true ->
  for_seasons fuel config (season :: rest) d w =
    for_seasons fuel config rest d
      (World b (calls w ++ [CFindElement season_dropdown_xpath])
         (log w ++ [INFO ("Processing Season: " +:+ season);
                    ERROR (match e with
                           | NoSuchElementException =>
                               "Season dropdown not found. Check the XPath."
                           | _ => "Error selecting season " +:+ season +:+ ": "
                                  +:+ str_of_exn e
                           end)])).
Proof.
  intros Efind He.
  set (w' := World b (calls w ++ [CFindElement season_dropdown_xpath]) _).
  assert (Esel : select_season season
                   (World (browser w) (calls w)
                      (log w ++ [INFO ("Processing Season: " +:+ season)]))
                 = (Ok false, w')).
  { unfold select_season, select_filter. subst w'.
    destruct e; try discriminate He;
      (erewrite try_except_caught;
         [| erewrite bind_raise by (apply invoke_exn; simpl; exact Efind); reflexivity
          | reflexivity]);
      unfold bind, logging, ret; simpl; by rewrite <- !app_assoc. }
  assert (Eopen : open_context config season w = (Ok false, w')).
  { unfold open_context. unfold bind at 1, logging at 1.
    erewrite bind_ok by exact Esel. reflexivity. }
  assert (Ectx : season_context fuel config season d w = (Ok d, w')).
  { unfold season_context. erewrite bind_ok by exact Eopen. reflexivity. }
  simpl. erewrite bind_ok by exact Ectx. reflexivity.
Qed.

End Selections.

(** ** One context per season *)

Section LogOfBody.

Context {B elem : Type} `{D : Driver B elem}.

Local Abbreviation M := (@M B elem).

Implicit Types (w : world B elem) (d : list record).

Lemma hushed_ret {A} (a : A) : hushed (ret a : M A).
Proof. intros w r w' [= <- <-]. exists []. by rewrite app_nil_r. Qed.

Lemma hushed_raise {A} (e : exn) : hushed (raise e : M A).
Proof. intros w r w' [= <- <-]. exists []. by rewrite app_nil_r. Qed.

Lemma hushed_diverge {A} : hushed (diverge : M A).
Proof. intros w r w' [= <- <-]. exists []. by rewrite app_nil_r. Qed.

Lemma hushed_lift {A} (x : py A) : hushed (lift x : M A).
Proof. intros w r w' [= <- <-]. exists []. by rewrite app_nil_r. Qed.

Lemma hushed_sleep (n : nat) : hushed (sleep n : M unit).
Proof. intros w r w' [= <- <-]. exists []. simpl. by rewrite app_nil_r. Qed.

Lemma hushed_invoke {A} (c : call elem) (op : B -> py A * B) : hushed (invoke c op).
Proof.
  intros w r w'. unfold invoke. destruct (op (browser w)) as [x b].
  intros [= <- <-]. exists []. simpl. by rewrite app_nil_r.
Qed.

Lemma hushed_logging (l : log_entry) :
  is_season_entry l = false -> hushed (logging l : M unit).
Proof. intros Hl w r w' [= <- <-]. exists [l]. simpl. by repeat constructor. Qed.

Lemma hushed_bind {A C} (m : M A) (k : A -> M C) :
  hushed m -> (forall a, hushed (k a)) -> hushed (bind m k).
Proof.
  intros Hm Hk w r w'. unfold bind.
  destruct (m w) as [[a|e|] w1] eqn:Em; destruct (Hm _ _ _ Em) as (l1 & E1 & F1).
  - intros Ek. destruct (Hk a _ _ _ Ek) as (l2 & E2 & F2).
    exists (l1 ++ l2). rewrite E2, E1, app_assoc. split; [done|]. by apply Forall_app.
  - intros [= <- <-]. eauto.
  - intros [= <- <-]. eauto.
Qed.

Lemma hushed_try_except {A} (body : M A) (handler : exn -> option (M A)) :
  hushed body -> (forall e h, handler e = Some h -> hushed h) ->
  hushed (try_except body handler).
Proof.
  intros Hb Hh w r w'. unfold try_except.
  destruct (body w) as [[a|e|] w1] eqn:Eb; destruct (Hb _ _ _ Eb) as (l1 & E1 & F1).
  - intros [= <- <-]. eauto.
  - destruct (handler e) as [h|] eqn:Eh.
    + intros Ek. destruct (Hh _ _ Eh _ _ _ Ek) as (l2 & E2 & F2).
      exists (l1 ++ l2). rewrite E2, E1, app_assoc. split; [done|]. by apply Forall_app.
    + intros [= <- <-]. eauto.
  - intros [= <- <-]. eauto.
Qed.

End LogOfBody.

Ltac hushed_step :=
  first
    [ apply hushed_ret | apply hushed_raise | apply hushed_diverge
    | apply hushed_lift | apply hushed_sleep | apply hushed_invoke
    | apply hushed_logging; reflexivity
    | apply hushed_bind; [|intros ?]
    | match goal with
      | |- hushed (if ?b then _ else _) => destruct b
      | |- hushed (match ?x with _ => _ end) => destruct x
      end ].

Ltac hushed_handler :=
  let e := fresh "e" in
  let h := fresh "h" in
  let Hh := fresh "Hh" in
  intros e h Hh; destruct e; simpl in Hh; try discriminate Hh;
  injection Hh as <-; repeat hushed_step.

Section SeasonRuns.

Context {B elem : Type} `{D : Driver B elem}.

Local Abbreviation M := (@M B elem).

Implicit Types (w : world B elem) (d : list record).

Lemma row_log_hushed (row : node) :
  Forall (fun e => is_season_entry e = false) (row_log row).
Proof.
  unfold row_log. destruct (row_columns row); [constructor|].
  destruct (make_record _); by repeat constructor.
Qed.

Lemma hushed_parsing_page (soup : list node) d : hushed (parsing_page soup d : M _).
Proof.
  intros w r w'. rewrite parsing_page_run. intros [= <- <-].
  exists (page_log soup). split; [reflexivity|].
  unfold page_log. destruct (Soup.find "table" soup); [|by repeat constructor].
  induction (page_rows soup) as [|row rows IH]; simpl; [constructor|].
  apply Forall_app. split; [apply row_log_hushed|exact IH].
Qed.

Lemma hushed_click_next : hushed click_next.
Proof.
  unfold click_next. apply hushed_try_except; [repeat hushed_step|hushed_handler].
Qed.

Lemma hushed_select_next_page : hushed select_next_page.
Proof. unfold select_next_page. repeat hushed_step. Qed.

Lemma hushed_deciding_advance : hushed deciding_advance.
Proof.
  unfold deciding_advance.
  apply hushed_try_except; [apply hushed_select_next_page|].
  intros e h Hh; destruct e; simpl in Hh; try discriminate Hh;
    injection Hh as <-; repeat hushed_step; apply hushed_click_next.
Qed.

Lemma hushed_page_iteration d : hushed (page_iteration d).
Proof.
  unfold page_iteration. apply hushed_bind; [apply hushed_invoke|].
  intros soup. apply hushed_bind; [apply hushed_parsing_page|].
  intros [[] d']; repeat hushed_step. apply hushed_deciding_advance.
Qed.

Lemma hushed_pagination (fuel : nat) d : hushed (pagination fuel d).
Proof.
  revert d. induction fuel as [|fuel IH]; intros d; simpl; [apply hushed_diverge|].
  apply hushed_bind; [apply hushed_page_iteration|].
  intros [[] d']; [apply IH|apply hushed_ret].
Qed.

Lemma hushed_select_filter (xpath text selected not_found failed : string) :
  is_season_entry (INFO (selected +:+ text)) = false ->
  hushed (select_filter xpath text selected not_found failed).
Proof.
  intros Hsel. unfold select_filter.
  apply hushed_try_except; [|hushed_handler].
  repeat first [apply hushed_logging; exact Hsel | hushed_step].
Qed.

Lemma season_runs_app (l1 l2 : list log_entry) :
  season_runs (l1 ++ l2) = (season_runs l1 + season_runs l2)%nat.
Proof. unfold season_runs. by rewrite List.filter_app, length_app. Qed.

Lemma season_runs_hushed (l : list log_entry) :
  Forall (fun e => is_season_entry e = false) l -> season_runs l = 0%nat.
Proof.
  change (season_runs l) with (length (List.filter is_season_entry l)).
  induction 1 as [|e l He _ IH]; [reflexivity|]. simpl. by rewrite He.
Qed.

(** A context, however it ends, logs the entry of line 66 once. *)
Lemma season_context_runs (fuel : nat) (config : Config) (season : string) d w r w' :
  season_context fuel config season d w = (r, w') ->
  season_runs (log w') = S (season_runs (log w)).
Proof.
  unfold season_context, open_context.
  assert (Hrest : hushed (bind (bind (select_season season)
                                  (fun ok : bool => if ok then select_season_type config
                                                    else ret false))
                            (fun ok : bool => if ok then pagination fuel d else ret d))).
  { apply hushed_bind.
    - apply hushed_bind; [by apply hushed_select_filter|].
      intros []; [by apply hushed_select_filter|apply hushed_ret].
    - intros []; [apply hushed_pagination|apply hushed_ret]. }
  intros Hrun.
  assert (Hrun' : bind (bind (select_season season)
                          (fun ok : bool => if ok then select_season_type config
                                            else ret false))
                    (fun ok : bool => if ok then pagination fuel d else ret d)
                    (World (browser w) (calls w)
                       (log w ++ [INFO ("Processing Season: " +:+ season)]))
                  = (r, w')).
  { rewrite <- Hrun. unfold bind, logging. simpl.
    destruct (select_season season _) as [[[]|?|] ?]; reflexivity. }
  destruct (Hrest _ _ _ Hrun') as (l & El & Fl).
  rewrite El. simpl. rewrite !season_runs_app, (season_runs_hushed _ Fl).
  unfold season_runs at 2. simpl. lia.
Qed.

(** X13.  When the loop over the seasons returns, it has started exactly
    one context for each season of the list, in whatever way each context
    ended. *)
Theorem one_context_per_season (fuel : nat) (config : Config) (seasons : list string) d w :
  succeeds (fst (for_seasons fuel config seasons d w)) = true ->
  season_runs (log (snd (for_seasons fuel config seasons d w)))
  = (season_runs (log w) + length seasons)%nat.
Proof.
  revert d w. induction seasons as [|season rest IH]; intros d w; simpl.
  - intros _. lia.
  - unfold bind.
    destruct (season_context fuel config season d w) as [[d1|e|] w1] eqn:Ectx;
      simpl; try discriminate.
    intros Hok. rewrite (IH _ _ Hok).
    rewrite (season_context_runs _ _ _ _ _ _ _ Ectx). lia.
Qed.

(** X14.  The loop over the seasons only appends: the records accumulated
    before it are a prefix of what it returns, in their order, and every
    record it adds has the seven keys with their types. *)
Theorem accumulated_records_kept (fuel : nat) (config : Config) (seasons : list string) d w :
  succeeds (fst (for_seasons fuel config seasons d w)) = true ->
  exists l, returned (fst (for_seasons fuel config seasons d w)) = d ++ l
            /\ Forall record_shape l.
Proof.
  destruct (for_seasons fuel config seasons d w) as [[d'|e|] w'] eqn:Erun;
    simpl; try discriminate.
  intros _. exact (appends_for_seasons _ _ _ _ _ _ _ Erun).
Qed.

End SeasonRuns.

(** ** Whole runs of the two strategies *)

Section ButtonRuns.

Context {B elem : Type} `{D : Driver B elem}.
Context (is_last : nat -> bool) (next_button : elem)
        (page_of : nat -> list node) (shows : nat -> B -> Prop).
Context (site : button_paginated is_last next_button page_of shows).

Implicit Types (w : world B elem) (d : list record).

(** One turn of the loop on page [k]. *)
Lemma button_turn (k : nat) d w :
  shows k (browser w) ->
  exists w1,
    page_iteration d w =
      (Ok (if is_last k then Break else Again, d ++ page_records (page_of k)), w1)
    /\ shows (if is_last k then k else S k) (browser w1)
    /\ calls w1 = calls w ++ button_probe next_button
                  ++ (if is_last k then [] else [CClick next_button; CSleep 3])
    /\ (is_last k = true ->
        last (log w1) = Some (INFO "Next button is disabled. Ending pagination.")).
Proof.
  intros Hk.
  destruct (bs_source _ _ _ _ site _ _ Hk) as (b1 & E1 & Htable & H1).
  destruct (bs_no_dropdown _ _ _ _ site _ _ H1) as (b2 & E2 & H2).
  destruct (bs_find _ _ _ _ site _ _ H2) as (b3 & E3 & H3).
  destruct (bs_class _ _ _ _ site _ _ H3) as (cls & b4 & E4 & Hcls & H4).
  unfold page_iteration. step_ok E1.
  erewrite bind_ok by apply parsing_page_run.
  rewrite bool_decide_true by exact Htable.
  unfold bind. erewrite deciding_advance_next by (simpl; eassumption).
  rewrite Hcls. destruct (is_last k) eqn:Elast.
  - eexists. split; [reflexivity|]. simpl. split; [exact H4|]. split.
    + unfold button_probe. simpl. by rewrite <- !app_assoc.
    + intros _. rewrite ?app_assoc. apply last_snoc.
  - destruct (bs_click _ _ _ _ site _ _ H4 Elast) as (b5 & E5 & H5).
    rewrite E5. eexists. split; [reflexivity|]. simpl. split; [exact H5|]. split.
    + unfold button_probe. simpl. by rewrite <- !app_assoc.
    + discriminate.
Qed.

Lemma button_pagination_from (n k fuel : nat) d w :
  (forall i, (k <= i < k + n)%nat -> is_last i = false) ->
  is_last (k + n) = true ->
  shows k (browser w) -> (n < fuel)%nat ->
  exists w' l,
    pagination fuel d w = (Ok (d ++ records_of_pages page_of k (S n)), w')
    /\ calls w' = calls w ++ l
    /\ length (List.filter is_page_source l) = S n
    /\ clicks l = n
    /\ last (log w') = Some (INFO "Next button is disabled. Ending pagination.").
Proof.
  revert k fuel d w. induction n as [|n IH]; intros k fuel d w Hmid Hend Hk Hfuel.
  - destruct fuel as [|fuel]; [lia|].
    destruct (button_turn k d w Hk) as (w1 & Erun & Hs & Ec & Hl).
    rewrite Nat.add_0_r in Hend. rewrite Hend in *.
    eexists w1, _. split; [|split; [exact Ec|]].
    + simpl. erewrite bind_ok by exact Erun.
      unfold records_of_pages. simpl. by rewrite app_nil_r.
    + repeat split; auto.
  - destruct fuel as [|fuel]; [lia|].
    destruct (button_turn k d w Hk) as (w1 & Erun & Hs & Ec & Hl).
    rewrite (Hmid k ltac:(lia)) in *.
    destruct (IH (S k) fuel (d ++ page_records (page_of k)) w1)
      as (w' & l & Erest & Ec' & Hvisits & Hclicks & Hlast); auto; try lia.
    { intros i Hi. apply Hmid. lia. }
    { by replace (S k + n)%nat with (k + S n)%nat by lia. }
    eexists w', _. split; [|split; [|split; [|split]]].
    + simpl. erewrite bind_ok by exact Erun. cbv beta iota. rewrite Erest.
      unfold records_of_pages. simpl. by rewrite <- !app_assoc.
    + rewrite Ec', Ec, <- !app_assoc. reflexivity.
    + rewrite !List.filter_app, !length_app, Hvisits. reflexivity.
    + unfold clicks in *. rewrite !List.filter_app, !length_app, Hclicks.
      simpl. lia.
    + exact Hlast.
Qed.

(** X15.  On a site that paginates with the Next button, a context that
    starts on page 1 of [T] ends: it reads the [T] pages once each, clicks
    the button [T - 1] times, finds it disabled on page [T], and returns
    what it had followed by the records of the pages in their order. *)
Theorem button_visits_every_page (T fuel : nat) d w :
  (forall i, (1 <= i < T)%nat -> is_last i = false) ->
  is_last T = true ->
  shows 1%nat (browser w) -> (1 <= T)%nat -> (T <= fuel)%nat ->
  exists w',
    pagination fuel d w = (Ok (d ++ records_of_pages page_of 1 T), w')
    /\ page_visits w w' = T
    /\ clicks (calls_since w w') = (T - 1)%nat
    /\ last (log w') = Some (INFO "Next button is disabled. Ending pagination.").
Proof.
  intros Hmid Hend H1 HT Hfuel.
  destruct (button_pagination_from (T - 1) 1 fuel d w)
    as (w' & l & Erun & Ec & Hvisits & Hclicks & Hlast); auto; try lia.
  { intros i Hi. apply Hmid. lia. }
  { by replace (1 + (T - 1))%nat with T by lia. }
  exists w'. unfold page_visits. rewrite (calls_since_app _ _ _ Ec).
  replace (S (T - 1)) with T in * by lia. repeat split; auto.
Qed.

(** X16.  The loop has no bound of its own: behind a Next button that is
    never marked disabled and always takes the click, it reads one page
    per unit of fuel and does not end. *)
Theorem endless_button_never_ends (k fuel : nat) d w :
  (forall i, is_last i = false) ->
  shows k (browser w) ->
  fst (pagination fuel d w) = Diverge
  /\ page_visits w (snd (pagination fuel d w)) = fuel.
Proof.
  intros Hnever. revert k d w. induction fuel as [|fuel IH]; intros k d w Hk.
  - simpl. split; [reflexivity|]. unfold page_visits, calls_since.
    by rewrite drop_all.
  - destruct (button_turn k d w Hk) as (w1 & Erun & Hs & Ec & _).
    rewrite Hnever in *. simpl. erewrite bind_ok by exact Erun. cbv beta iota.
    destruct (IH (S k) (d ++ page_records (page_of k)) w1 Hs) as [Hdiv Hvisits].
    split; [exact Hdiv|].
    destruct (quiet_pagination fuel (d ++ page_records (page_of k)) w1 _ _
                (surjective_pairing _)) as (l & El & _).
    unfold page_visits in *. rewrite (calls_since_app _ _ _ El) in Hvisits.
    erewrite calls_since_app by (rewrite El, Ec, <- !app_assoc; reflexivity).
    rewrite !List.filter_app, !length_app, Hvisits. reflexivity.
Qed.

End ButtonRuns.

Section DropdownOrder.

Context {B elem : Type} `{D : Driver B elem}.
Context (T : nat) (page_dropdown : elem) (shows : nat -> B -> Prop)
        (page_of : nat -> list node).
Context (site : dropdown_paginated T page_dropdown shows).
Context (pages : forall k b, shows k b ->
                   exists b', drv_page_source b = (Val (page_of k), b')).

Implicit Types (w : world B elem) (d : list record).

Lemma dropdown_records_from (n k fuel : nat) d w :
  (k + n)%nat = T -> shows k (browser w) -> (n < fuel)%nat ->
  fst (pagination fuel d w) = Ok (d ++ records_of_pages page_of k (S n)).
Proof.
  revert k fuel d w. induction n as [|n IH]; intros k fuel d w HT Hk Hfuel;
    (destruct fuel as [|fuel]; [lia|]);
    destruct (dropdown_turn T page_dropdown shows site k d w Hk ltac:(lia))
      as (soup & w1 & opt & Erun & Hs & _);
    destruct (page_iteration_data _ _ _ _ _ Erun) as (soup' & b & Esrc & Edata);
    destruct (pages _ _ Hk) as (b' & Epage);
    rewrite Epage in Esrc; injection Esrc as <- <-;
    rewrite Edata in Erun.
  - destruct (decide (k < T)%nat) as [Hlt|Hge]; [lia|].
    simpl. erewrite bind_ok by exact Erun.
    unfold records_of_pages. simpl. by rewrite app_nil_r.
  - destruct (decide (k < T)%nat) as [Hlt|Hge]; [|lia].
    simpl. erewrite bind_ok by exact Erun. cbv beta iota.
    rewrite (IH (S k) fuel _ w1 ltac:(lia) Hs ltac:(lia)).
    unfold records_of_pages. simpl. by rewrite <- !app_assoc.
Qed.

(** X17.  Under the dropdown strategy a context that starts on page 1 of
    [T] returns what was accumulated before it followed by the records of
    page 1, page 2, ..., page [T], each page once and in this order. *)
Theorem dropdown_records_in_page_order (fuel : nat) d w :
  shows 1%nat (browser w) -> (1 <= T)%nat -> (T <= fuel)%nat ->
  fst (pagination fuel d w) = Ok (d ++ records_of_pages page_of 1 T).
Proof.
  intros H1 HT Hfuel.
  rewrite (dropdown_records_from (T - 1) 1 fuel d w); try lia; auto.
  by replace (S (T - 1)) with T by lia.
Qed.

End DropdownOrder.

(** ** The end of the session and the pipeline *)

Section FailingQuit.

Context {B elem : Type} `{D : Driver B elem}.

Implicit Types (w : world B elem) (d : list record).

(** X18.  An exception of [driver.quit()] in the [finally] clause takes
    the place of whatever the body of the [try] statement produced: once
    the session is acquired, a run that ends raises that exception, also
    when every page was scraped without an error, and returns no record. *)
Theorem failing_quit_fails_run (fuel : nat) (config : Config) (e : exn) w :
  (forall b, exists b', drv_quit b = (Exn e, b')) ->
  acquires w = true ->
  ends (fst (scrape_nba_stats fuel config w)) = true ->
  fst (scrape_nba_stats fuel config w) = Raise e.
Proof.
  intros Hquit Hacq.
  assert (Hsession : forall w0,
            fst (scrape_session fuel hard_config w0) = Raise e
            \/ fst (scrape_session fuel hard_config w0) = Diverge).
  { intros w0. unfold scrape_session, try_finally.
    destruct (session_body fuel hard_config w0) as [r1 w1].
    unfold session_end, bind, invoke.
    destruct (Hquit (browser w1)) as [b' ->]. destruct r1; simpl; auto. }
  assert (Hrun : forall r w', scrape_nba_stats fuel config w = (r, w') ->
                              r = Raise e \/ r = Diverge).
  { intros r w'. revert Hacq. unfold acquires, scrape_nba_stats.
    unfold bind at 1, invoke at 1.
    destruct (drv_install (browser w)) as [[[]|?] b1]; [|discriminate]. simpl.
    unfold bind at 1, invoke at 1. simpl.
    destruct (drv_chrome b1) as [[[]|?] b2]; [|discriminate]. simpl. intros _.
    unfold bind at 1.
    match goal with |- context [scrape_session fuel hard_config ?w0] =>
      destruct (Hsession w0) as [Hs|Hs];
      destruct (scrape_session fuel hard_config w0) as [r1 w1]
    end; simpl in Hs; subst r1; intros [= <- <-]; auto. }
  destruct (scrape_nba_stats fuel config w) as [r w'] eqn:Erun. simpl.
  destruct (Hrun _ _ eq_refl) as [-> | ->]; [reflexivity|discriminate].
Qed.

End FailingQuit.

Section PipelineProperties.

Context {B elem : Type} `{D : Driver B elem} {R : Type}.

Local Abbreviation M := (@M B elem).

Variable setup_logging : M unit.
Variable load_config : M Config.
Variable process_data : list record -> M (list R).
Variable load_to_database : list R -> Config -> M unit.

Implicit Types (w : world B elem).

(** X19.  [main] lets no [Exception] out of the three stages: an exception
    that leaves [main] is not an [Exception], or it was raised while the
    logging was set up, before the [try] statement. *)
Theorem main_contains_exceptions (fuel : nat) w :
  match fst (main setup_logging load_config process_data load_to_database fuel w) with
  | Raise e => is_Exception e = false \/ fst (setup_logging w) = Raise e
  | _ => True
  end.
Proof.
  unfold main, bind at 1.
  destruct (setup_logging w) as [[[]|e|] w1]; simpl; auto.
  unfold bind at 1, logging at 1. unfold try_except.
  match goal with |- context [etl ?a ?b ?c ?f ?w0] =>
    destruct (etl a b c f w0) as [[[]|e|] w2]
  end; simpl; auto.
  destruct (is_Exception e) eqn:He; simpl; auto.
Qed.

(** X20.  When the extraction raises an [Exception], the transform and the
    load stage are not run: [main] logs the failure and returns, whatever
    these two stages are. *)
Theorem failed_extraction_skips_later_stages (fuel : nat) w w1 config w2 e w3 :
  setup_logging w = (Ok tt, w1) ->
  load_config (World (browser w1) (calls w1) (log w1 ++ [INFO "Starting ETL pipeline"]))
    = (Ok config, w2) ->
  scrape_nba_stats fuel config
    (World (browser w2) (calls w2)
       (log w2 ++ [INFO "Configuration loaded successfully";
                   INFO "Starting data extraction"])) = (Raise e, w3) ->
  is_Exception e = true ->
  main setup_logging load_config process_data load_to_database fuel w =
    (Ok tt, World (browser w3) (calls w3)
              (log w3 ++ [ERROR ("ETL pipeline failed: " +:+ str_of_exn e)])).
Proof.
  intros Esetup Eload Escrape He.
  unfold main. erewrite bind_ok by exact Esetup.
  unfold bind at 1, logging at 1.
  erewrite try_except_caught;
    [| unfold etl; erewrite bind_ok by exact Eload;
       unfold bind at 1, logging at 1; unfold bind at 1, logging at 1; simpl;
       rewrite <- app_assoc; simpl;
       erewrite bind_raise by exact Escrape; reflexivity
     | by rewrite He].
  reflexivity.
Qed.

End PipelineProperties.

Section Navigation.

Context {B elem : Type} `{D : Driver B elem}.

Implicit Types (w : world B elem) (d : list record).

(** X21.  When the first navigation raises, no season is processed and
    the browser is closed all the same: the calls of the run are the
    acquisition, the navigation to the address written in the source and
    [quit], and the run raises the exception of the navigation. *)
Theorem failed_navigation_closes_browser (fuel : nat) (config : Config) w b1 b2 e b3 b4 :
  drv_install (browser w) = (Val tt, b1) ->
  drv_chrome b1 = (Val tt, b2) ->
  drv_get "https://www.nba.com/stats/players/boxscores" b2 = (Exn e, b3) ->
  drv_quit b3 = (Val tt, b4) ->
  scrape_nba_stats fuel config w =
    (Raise e,
     World b4 (calls w ++ [CInstall; CChrome;
                           CGet "https://www.nba.com/stats/players/boxscores"; CQuit])
           (log w ++ [INFO "WebDriver closed."])).
Proof.
  intros Einstall Echrome Eget Equit.
  unfold scrape_nba_stats. step_ok Einstall. step_ok Echrome.
  erewrite bind_raise; [reflexivity|].
  unfold scrape_session, try_finally, session_body.
  erewrite bind_raise by (apply invoke_exn; simpl; exact Eget).
  unfold session_end. step_ok Equit. unfold logging. simpl.
  by rewrite <- !app_assoc.
Qed.

End Navigation.

(** ** The table that is parsed *)

Lemma find_all_node_named (name : string) :
  forall n, Forall (fun m => exists ch, m = NTag name ch) (Soup.find_all_node name n).
Proof.
  fix IH 1. intros [s|nm ch]; simpl; [constructor|].
  apply Forall_app. split.
  - destruct (String.eqb_spec nm name) as [->|]; [|constructor].
    constructor; [by eexists|constructor].
  - induction ch as [|c ch IHch]; simpl; [constructor|].
    apply Forall_app. split; [apply IH|exact IHch].
Qed.

Lemma find_named (name : string) (soup : list node) (t : node) :
  Soup.find name soup = Some t -> exists ch, t = NTag name ch.
Proof.
  unfold Soup.find, Soup.find_all.
  assert (Hall : Forall (fun m => exists ch, m = NTag name ch)
                   (flat_map (Soup.find_all_node name) soup)).
  { induction soup as [|n soup IH]; simpl; [constructor|].
    apply Forall_app. split; [apply find_all_node_named|exact IH]. }
  destruct (flat_map (Soup.find_all_node name) soup) as [|m l]; [discriminate|].
  intros [= <-]. by apply Forall_cons in Hall as [? _].
Qed.

(** X22.  Only the first table of the page, in document order, is parsed:
    the records and the log entries of a page are those of the document
    made of that table alone, whatever else the page holds. *)
Theorem only_first_table_parsed (soup : list node) (stats_table : node) :
  Soup.find "table" soup = Some stats_table ->
  page_records soup = page_records [stats_table]
  /\ page_log soup = page_log [stats_table].
Proof.
  intros Hfind. destruct (find_named _ _ _ Hfind) as [ch ->].
  unfold page_records, page_log, page_rows. rewrite Hfind.
  assert (Hself : Soup.find "table" [NTag "table" ch] = Some (NTag "table" ch))
    by reflexivity.
  by rewrite Hself.
Qed.

(** ** More runs on the simulated sites *)

Module MoreRuns.
Import Sim SimExtra SimMore.


Lemma cells_after_seventh_ignored_witness :
  row_records row_wide = row_records row1 /\ row_log row_wide = row_log row1.
Proof. apply (cells_after_seventh_ignored row_wide row1). reflexivity. Defined.


Lemma no_table_ends_context_witness :
  pagination (D := driver bare_site) 1 [] start =
    (Ok [], World 1%nat ([] ++ [CPageSource])
              ([] ++ [WARNING "No table found on the page."])).
Proof.
  apply (no_table_ends_context (D := driver bare_site) 0 [] start
           [NTag "html" [NTag "body" [NTag "p" [NText "No data"]]]] 1%nat).
  - reflexivity.
  - reflexivity.
Defined.

Lemma no_next_button_ends_context_witness :
  pagination (D := faulty_driver NoPager button_site) 1 [] start =
    (Ok ([] ++ page_records page1),
     World 1%nat ([] ++ [CPageSource; CFindElement next_button_xpath;
                         CFindElement next_button_by_label])
           ([] ++ page_log page1
               ++ [not_found_msg; INFO "No Next button found. Ending pagination."])).
Proof.
  apply (no_next_button_ends_context (D := faulty_driver NoPager button_site)
           0 [] start page1 1%nat 1%nat 1%nat).
  - reflexivity.
  - discriminate.
  - reflexivity.
  - reflexivity.
Defined.

Lemma classless_next_button_aborts_run_witness :
  fst (for_seasons (D := faulty_driver Classless button_site) 5 hard_config
         ["2024-25"; "2023-24"] [] start) = Raise TypeError.
Proof.
  pose (w1 := snd (open_context (D := faulty_driver Classless button_site)
                     hard_config "2024-25" start)).
  rewrite (classless_next_button_aborts_run (D := faulty_driver Classless button_site)
             5 0 hard_config "2024-25" ["2023-24"] [] start w1 [] w1 page1 ENext 1%nat).
  - reflexivity.
  - reflexivity.
  - reflexivity.
  - lia.
  - exists 1%nat, 1%nat, 1%nat. repeat split; try reflexivity. discriminate.
Defined.

Lemma click_error_aborts_run_witness :
  fst (for_seasons (D := faulty_driver StaleClick button_site) 5 hard_config
         ["2024-25"; "2023-24"] [] start) = Raise WebDriverException.
Proof.
  pose (w1 := snd (open_context (D := faulty_driver StaleClick button_site)
                     hard_config "2024-25" start)).
  rewrite (click_error_aborts_run (D := faulty_driver StaleClick button_site)
             5 0 hard_config "2024-25" ["2023-24"] [] start w1 [] w1 page1 ENext
             "Pagination_button" 1%nat WebDriverException 1%nat).
  - reflexivity.
  - reflexivity.
  - reflexivity.
  - lia.
  - exists 1%nat, 1%nat, 1%nat. repeat split; try reflexivity. discriminate.
  - reflexivity.
  - reflexivity.
  - discriminate.
  - discriminate.
Defined.

Lemma unreadable_page_number_ends_context_witness :
  pagination (D := faulty_driver WordyPage dropdown_site) 1 [] start =
    (Ok ([] ++ page_records page1),
     World 1%nat ([] ++ dropdown_probe EPager (EOption 1))
           ([] ++ page_log page1 ++ [ERROR "Error handling pagination: ValueError"])).
Proof.
  apply (unreadable_page_number_ends_context
           (D := faulty_driver WordyPage dropdown_site)
           0 [] start page1 EPager (EOption 1) "one" 1%nat).
  - exists 1%nat, 1%nat, 1%nat, 1%nat. repeat split; try reflexivity. discriminate.
  - reflexivity.
Defined.

Lemma missing_page_option_falls_back_to_button_witness :
  fst (page_iteration (D := faulty_driver MissingOption dropdown_site) [] start)
  = Ok (Break, page_records page1).
Proof.
  rewrite (missing_page_option_falls_back_to_button
             (D := faulty_driver MissingOption dropdown_site)
             [] start page1 EPager (EOption 1) "1" 1%nat 1
             [EOption 1; EOption 2] 1%nat 1%nat).
  - reflexivity.
  - exists 1%nat, 1%nat, 1%nat, 1%nat. repeat split; try reflexivity. discriminate.
  - reflexivity.
  - reflexivity.
  - reflexivity.
  - reflexivity.
Defined.

Lemma missing_season_dropdown_skips_season_witness :
  for_seasons (D := faulty_driver NoFilters dropdown_site) 5 hard_config
    ["2024-25"; "2023-24"] [] start =
  for_seasons (D := faulty_driver NoFilters dropdown_site) 5 hard_config
    ["2023-24"] []
    (World 1%nat ([] ++ [CFindElement season_dropdown_xpath])
       ([] ++ [INFO ("Processing Season: " +:+ "2024-25");
               ERROR "Season dropdown not found. Check the XPath."])).
Proof.
  apply (missing_season_dropdown_skips_season
           (D := faulty_driver NoFilters dropdown_site)
           5 hard_config "2024-25" ["2023-24"] [] start
           NoSuchElementException 1%nat).
  - reflexivity.
  - reflexivity.
Defined.

Lemma one_context_per_season_witness :
  season_runs (log (snd (seasons_on dropdown_site 5 hard_config
                           ["2022-23"; "2023-24"; "2024-25"] [] start))) = 3%nat.
Proof.
  apply (one_context_per_season (D := driver dropdown_site) 5 hard_config
           ["2022-23"; "2023-24"; "2024-25"] [] start).
  vm_compute. reflexivity.
Defined.

Lemma accumulated_records_kept_witness :
  exists l, returned (fst (seasons_on dropdown_site 5 hard_config ["2024-25"]
                              (page_records page2) start))
            = page_records page2 ++ l
            /\ Forall record_shape l.
Proof.
  apply (accumulated_records_kept (D := driver dropdown_site) 5 hard_config
           ["2024-25"] (page_records page2) start).
  vm_compute. reflexivity.
Defined.

(** The two-page site of [button_site] honours the Next button. *)
Lemma sim_button_site :
  button_paginated (D := driver button_site) (fun k => (2 <=? k)%nat) ENext
    page_number on_page.
Proof.
  split.
  - intros k b [-> [H1 H2]].
    assert (k = 1 \/ k = 2)%nat as [-> | ->] by lia;
      eexists; (split; [reflexivity|]); (split; [discriminate|]);
      split; [reflexivity|lia|reflexivity|lia].
  - intros k b Hs. exists b. split; [reflexivity|exact Hs].
  - intros k b Hs. exists b. split; [reflexivity|exact Hs].
  - intros k b [-> [H1 H2]].
    assert (k = 1 \/ k = 2)%nat as [-> | ->] by lia;
      eexists _, _; (split; [reflexivity|]); (split; [reflexivity|]);
      split; [reflexivity|lia|reflexivity|lia].
  - intros k b [-> [H1 H2]] Hlast.
    assert (k = 1)%nat as -> by (apply Nat.leb_gt in Hlast; lia).
    exists 2%nat. split; [reflexivity|]. split; [reflexivity|lia].
Qed.

Lemma button_visits_every_page_witness :
  exists w',
    paginate_on button_site 2 [] start =
      (Ok ([] ++ records_of_pages page_number 1 2), w')
    /\ page_visits start w' = 2%nat
    /\ clicks (calls_since start w') = 1%nat
    /\ last (log w') = Some (INFO "Next button is disabled. Ending pagination.").
Proof.
  apply (button_visits_every_page (D := driver button_site)
           (fun k => (2 <=? k)%nat) ENext page_number on_page sim_button_site
           2 2 [] start).
  - intros i Hi. assert (i = 1)%nat as -> by lia. reflexivity.
  - reflexivity.
  - split; [reflexivity|lia].
  - lia.
  - lia.
Defined.

(** The endless site never marks its button disabled. *)
Lemma sim_endless_site :
  button_paginated (D := faulty_driver Endless button_site) (fun _ => false) ENext
    (fun _ => page1) (fun k b => b = k).
Proof.
  split.
  - intros k b ->. exists k. split; [reflexivity|]. split; [discriminate|reflexivity].
  - intros k b ->. exists k. split; reflexivity.
  - intros k b ->. exists k. split; reflexivity.
  - intros k b ->. eexists _, k. split; [reflexivity|]. split; reflexivity.
  - intros k b -> _. exists (S k). split; reflexivity.
Qed.

Lemma endless_button_never_ends_witness :
  fst (pagination (D := faulty_driver Endless button_site) 40 [] start) = Diverge
  /\ page_visits start
       (snd (pagination (D := faulty_driver Endless button_site) 40 [] start)) = 40%nat.
Proof.
  apply (endless_button_never_ends (D := faulty_driver Endless button_site)
           (fun _ => false) ENext (fun _ => page1) (fun k b => b = k)
           sim_endless_site 1 40 [] start).
  - reflexivity.
  - reflexivity.
Defined.

Lemma dropdown_records_in_page_order_witness :
  fst (paginate_on dropdown_site 2 [] start)
  = Ok ([] ++ records_of_pages page_number 1 2).
Proof.
  apply (dropdown_records_in_page_order (D := driver dropdown_site)
           2 EPager shows page_number Runs.sim_dropdown_site).
  - intros k b [-> [H1 H2]].
    assert (k = 1 \/ k = 2)%nat as [-> | ->] by lia; eexists; reflexivity.
  - split; [reflexivity|lia].
  - lia.
  - lia.
Defined.

Lemma failing_quit_fails_run_witness :
  fst (scrape_nba_stats (D := faulty_driver StuckQuit dropdown_site) 5 hard_config start)
  = Raise WebDriverException.
Proof.
  apply (failing_quit_fails_run (D := faulty_driver StuckQuit dropdown_site)
           5 hard_config WebDriverException start).
  - intros b. exists b. reflexivity.
  - reflexivity.
  - vm_compute. reflexivity.
Defined.

Lemma failed_extraction_skips_later_stages_witness :
  fst (main_on StuckQuit dropdown_site 5) = Ok tt
  /\ last (log (snd (main_on StuckQuit dropdown_site 5)))
     = Some (ERROR "ETL pipeline failed: WebDriverException").
Proof.
  unfold main_on.
  rewrite (failed_extraction_skips_later_stages
             (D := faulty_driver StuckQuit dropdown_site)
             (ret tt) (ret other_config) (fun raw_data => ret raw_data)
             (fun _ _ => ret tt) 5 start start other_config
             (World 1%nat [] ([] ++ [INFO "Starting ETL pipeline"]))
             WebDriverException
             (snd (scrape_nba_stats (D := faulty_driver StuckQuit dropdown_site) 5
                     other_config
                     (World 1%nat []
                        (([] ++ [INFO "Starting ETL pipeline"])
                           ++ [INFO "Configuration loaded successfully";
                               INFO "Starting data extraction"]))))).
  - split; [reflexivity|]. cbn [snd log]. apply last_snoc.
  - reflexivity.
  - reflexivity.
  - match goal with |- ?run = (_, snd ?run') =>
      change run' with run;
      assert (Hfst : fst run = Raise WebDriverException)
    end.
    { apply (failing_quit_fails_run (D := faulty_driver StuckQuit dropdown_site)).
      - intros b. exists b. reflexivity.
      - reflexivity.
      - vm_compute. reflexivity. }
    match goal with |- ?run = _ => destruct run as [r w'] end.
    simpl in Hfst. by rewrite Hfst.
  - reflexivity.
Defined.

Lemma failed_navigation_closes_browser_witness :
  scrape_nba_stats (D := faulty_driver DeadSite dropdown_site) 5 other_config start =
    (Raise WebDriverException,
     World 1%nat ([] ++ [CInstall; CChrome;
                         CGet "https://www.nba.com/stats/players/boxscores"; CQuit])
           ([] ++ [INFO "WebDriver closed."])).
Proof.
  apply (failed_navigation_closes_browser (D := faulty_driver DeadSite dropdown_site)
           5 other_config start 1%nat 1%nat WebDriverException 1%nat 1%nat);
    reflexivity.
Defined.

Lemma only_first_table_parsed_witness :
  page_records (page1 ++ page2) = page_records [NTag "table" [NTag "tbody" [header; row1; row2; row3]]]
  /\ page_log (page1 ++ page2) = page_log [NTag "table" [NTag "tbody" [header; row1; row2; row3]]].
Proof.
  apply (only_first_table_parsed (page1 ++ page2)). reflexivity.
Defined.

End MoreRuns.
